(** * Online Shopping Cart: a shallow embedding of [src/main.py]

    The Python program keeps [Product] objects that are shared between the
    catalog dictionary and the [CartItem]s of the cart (a cart line holds a
    reference to the very object stored in the catalog).  We model the Python
    object store explicitly: [heap] is the list of allocated [Product]
    objects, a reference is an index into it ([loc]), and both dictionaries
    are stdpp [gmap]s keyed by product-id strings.

    Python integers are modelled by [Z].  The price is read with
    [askfloat] in the GUI, so it is a binary64 float; the state model
    keeps it as [Z] (exact arithmetic), which is only used for facts that
    do not depend on the value of the total.  The total as Python computes
    it, with rounded float products and sums, is modelled separately by
    [get_cart_total_float] over [SpecFloat]'s binary64 operations.

    Every method returns [option (result * new_state)]; [None] stands for a
    raised Python exception (a [KeyError], or a dangling reference, which a
    Python program can never produce). *)

From Corelib Require Import PrimFloat SpecFloat FloatOps.
From Stdlib Require Import ZArith String Ascii Decimal DecimalString DecimalN.
From stdpp Require Import base gmap strings list.

Open Scope Z_scope.
Set Warnings "-inexact-float".

(** ** Product *)

Record Product := mkProduct {
  _product_id : string;
  _name : string;
  _price : Z;
  _quantity_available : Z
}.

Definition with_quantity (p : Product) (q : Z) : Product :=
  mkProduct (_product_id p) (_name p) (_price p) q.

(** [@quantity_available.setter]: ignores negative values. *)
Definition set_quantity_available (p : Product) (value : Z) : Product :=
  if 0 <=? value then with_quantity p value else p.

(** [decrease_quantity]: returns the boolean result and the updated object. *)
Definition decrease_quantity (p : Product) (amount : Z) : bool * Product :=
  if (0 <? amount) && (amount <=? _quantity_available p)
  then (true, with_quantity p (_quantity_available p - amount))
  else (false, p).

(** [increase_quantity]: unconditional. *)
Definition increase_quantity (p : Product) (amount : Z) : Product :=
  with_quantity p (_quantity_available p + amount).

(** ** CartItem *)

Abbreviation loc := nat (only parsing).

Record CartItem := mkCartItem {
  product : loc;      (** reference to a [Product] object *)
  quantity : Z
}.

Abbreviation heap_t := (list Product) (only parsing).

(** [CartItem.subtotal]: [self.product.price * self.quantity]. *)
Definition subtotal (h : heap_t) (it : CartItem) : option Z :=
  p ← h !! product it; Some (_price p * quantity it).

(** ** ShoppingCart *)

Record ShoppingCart := mkShoppingCart {
  heap : heap_t;
  catalog : gmap string loc;
  cart : gmap string CartItem;
  _next_id : Z
}.

(** [ShoppingCart.__init__] *)
Definition init : ShoppingCart := mkShoppingCart [] ∅ ∅ 1.

(** Python's [f"{n:03d}"]: decimal digits, left-padded with ['0'] to width 3
    (the sign counts in the width). *)
Definition decimal_digits (n : Z) : string :=
  NilZero.string_of_uint (N.to_uint (Z.to_N n)).

Fixpoint zeros (k : nat) : string :=
  match k with
  | O => EmptyString
  | S k' => String "0" (zeros k')
  end.

Definition zero_pad (width : nat) (s : string) : string :=
  zeros (width - String.length s)%nat ++ s.

Definition format_03d (n : Z) : string :=
  if n <? 0 then String "-" (zero_pad 2 (decimal_digits (- n)))
  else zero_pad 3 (decimal_digits n).

Definition pid_of (n : Z) : string := "PID" ++ format_03d n.

(** [generate_product_id] *)
Definition generate_product_id (s : ShoppingCart) : string * ShoppingCart :=
  (pid_of (_next_id s),
   mkShoppingCart (heap s) (catalog s) (cart s) (_next_id s + 1)).

(** [add_product]: allocates a fresh [Product] object and stores it. *)
Definition add_product (name : string) (price qty : Z) (s : ShoppingCart)
  : string * ShoppingCart :=
  let '(pid, s1) := generate_product_id s in
  let l := length (heap s1) in
  (pid, mkShoppingCart (heap s1 ++ [mkProduct pid name price qty])
                       (<[pid := l]> (catalog s1)) (cart s1) (_next_id s1)).

(** [add_to_cart] *)
Definition add_to_cart (pid : string) (qty : Z) (s : ShoppingCart)
  : option (bool * ShoppingCart) :=
  match catalog s !! pid with
  | None => Some (false, s)
  | Some l =>
      p ← heap s !! l;
      let '(ok, p') := decrease_quantity p qty in
      if ok then
        let h := <[l := p']> (heap s) in
        match cart s !! pid with
        | Some it =>
            Some (true, mkShoppingCart h (catalog s)
                          (<[pid := mkCartItem (product it) (quantity it + qty)]> (cart s))
                          (_next_id s))
        | None =>
            Some (true, mkShoppingCart h (catalog s)
                          (<[pid := mkCartItem l qty]> (cart s)) (_next_id s))
        end
      else Some (false, s)
  end.

(** [update_cart_quantity] *)
Definition update_cart_quantity (pid : string) (new_qty : Z) (s : ShoppingCart)
  : option (bool * ShoppingCart) :=
  match cart s !! pid with
  | None => Some (false, s)
  | Some item =>
      let current_qty := quantity item in
      p ← heap s !! product item;
      let available_qty := _quantity_available p in
      let diff := new_qty - current_qty in
      if diff =? 0 then Some (true, s)
      else if 0 <? diff then
        if diff <=? available_qty then
          let '(_, p') := decrease_quantity p diff in
          Some (true, mkShoppingCart (<[product item := p']> (heap s)) (catalog s)
                        (<[pid := mkCartItem (product item) new_qty]> (cart s))
                        (_next_id s))
        else Some (false, s)
      else
        Some (true, mkShoppingCart
                      (<[product item := increase_quantity p (- diff)]> (heap s))
                      (catalog s)
                      (<[pid := mkCartItem (product item) new_qty]> (cart s))
                      (_next_id s))
  end.

(** [remove_from_cart]: [self.catalog[pid]] raises [KeyError] when absent. *)
Definition remove_from_cart (pid : string) (s : ShoppingCart)
  : option (bool * ShoppingCart) :=
  match cart s !! pid with
  | None => Some (false, s)
  | Some item =>
      l ← catalog s !! pid;
      p ← heap s !! l;
      Some (true, mkShoppingCart (<[l := increase_quantity p (quantity item)]> (heap s))
                    (catalog s) (delete pid (cart s)) (_next_id s))
  end.

(** [get_cart_total]: [sum(item.subtotal() for item in self.cart.values())]. *)
Definition get_cart_total (s : ShoppingCart) : option (Z * ShoppingCart) :=
  tot ← map_fold (fun _ it acc => a ← acc; st ← subtotal (heap s) it; Some (a + st))
                 (Some 0) (cart s);
  Some (tot, s).

(** [clear_cart] *)
Definition clear_cart (s : ShoppingCart) : ShoppingCart :=
  mkShoppingCart (heap s) (catalog s) ∅ (_next_id s).

(** ** Façade operations and reachable states *)

Inductive op :=
  | AddProduct (name : string) (price qty : Z)
  | AddToCart (pid : string) (qty : Z)
  | UpdateCartQuantity (pid : string) (new_qty : Z)
  | RemoveFromCart (pid : string)
  | GetCartTotal
  | ClearCart.

(** One façade call; [None] when the call raises. *)
Definition step (o : op) (s : ShoppingCart) : option ShoppingCart :=
  match o with
  | AddProduct n pr q => Some (add_product n pr q s).2
  | AddToCart pid q => snd <$> add_to_cart pid q s
  | UpdateCartQuantity pid q => snd <$> update_cart_quantity pid q s
  | RemoveFromCart pid => snd <$> remove_from_cart pid s
  | GetCartTotal => snd <$> get_cart_total s
  | ClearCart => Some (clear_cart s)
  end.

Fixpoint exec (os : list op) (s : ShoppingCart) : option ShoppingCart :=
  match os with
  | [] => Some s
  | o :: os' => s' ← step o s; exec os' s'
  end.

Inductive reachable : ShoppingCart -> Prop :=
  | reachable_init : reachable init
  | reachable_step o s s' : reachable s -> step o s = Some s' -> reachable s'.

(** ** Observation functions used in the statements *)

(** Available stock of the object at reference [l] (0 for a dangling one). *)
Definition stock_at (h : heap_t) (l : loc) : Z :=
  match h !! l with Some p => _quantity_available p | None => 0 end.

(** Quantity a cart line reserves for the object at reference [l]. *)
Definition contrib (l : loc) (it : CartItem) : Z :=
  if decide (product it = l) then quantity it else 0.

(** Total quantity reserved for the object [l] across all cart lines. *)
Definition reserved (l : loc) (c : gmap string CartItem) : Z :=
  map_fold (fun _ it acc => contrib l it + acc) 0 c.

(** Stock available plus quantity reserved, for the object [l]. *)
Definition product_total (s : ShoppingCart) (l : loc) : Z :=
  stock_at (heap s) l + reserved l (cart s).

(** Reading back the digits produced by [decimal_digits]. *)
Definition parse_digits (s : string) : option N :=
  option_map N.of_uint (NilEmpty.uint_of_string s).

(** The state invariant of the façade: the [n] allocated products are the
    ones the catalog names [pid_of 1 .. pid_of n] (at references
    [0 .. n-1]), the counter is [n + 1], and every cart line refers to the
    catalog's object for its key. *)
Record wf (s : ShoppingCart) : Prop := {
  wf_next : _next_id s = Z.of_nat (length (heap s)) + 1;
  wf_catalog : forall k l, catalog s !! k = Some l <->
                 (l < length (heap s))%nat /\ k = pid_of (Z.of_nat l + 1);
  wf_cart : forall k it, cart s !! k = Some it -> catalog s !! k = Some (product it)
}.

(** Operations that move stock between a product and the cart. *)
Definition conserving (o : op) : Prop :=
  match o with
  | AddToCart _ _ | UpdateCartQuantity _ _ | RemoveFromCart _ => True
  | _ => False
  end.

(** The first steps of the scenario of the spec: [Pen] (price 10, stock 5)
    and [Book] (price 50, stock 2) added, then 3 [Pen]s put in the cart. *)
Definition scenario_state : ShoppingCart :=
  match exec [AddProduct "Pen" 10 5; AddProduct "Book" 50 2; AddToCart "PID001" 3] init with
  | Some s => s
  | None => init
  end.

(** Value of a cart line: unit price of the product it references times
    the line quantity. *)
Definition line_value (h : heap_t) (it : CartItem) : Z :=
  match h !! product it with Some p => _price p * quantity it | None => 0 end.

(** Sum of [line_value] over all cart lines. *)
Definition cart_value (s : ShoppingCart) : Z :=
  map_fold (fun _ it acc => line_value (heap s) it + acc) 0 (cart s).

(** ** Binary64 arithmetic of the cart total

    [float * int] in Python converts the int to a float (round to nearest,
    ties to even; [OverflowError] when it is too large) and multiplies the
    two floats, rounding the result. *)
Definition py_int_to_float (n : Z) : option spec_float :=
  let f := match n with
           | Z0 => S754_zero false
           | Zpos m => binary_round 53 1024 false m 0
           | Zneg m => binary_round 53 1024 true m 0
           end in
  match f with S754_infinity _ => None | _ => Some f end.

(** [CartItem.subtotal]: [self.product.price * self.quantity] with a float
    price. *)
Definition subtotal_float (price : spec_float) (qty : Z) : option spec_float :=
  match py_int_to_float qty with
  | Some q => Some (SFmul 53 1024 price q)
  | None => None
  end.

(** [ShoppingCart.get_cart_total]: [sum] of the float subtotals of the cart
    lines, given as (price, quantity) pairs in the dict's insertion order.
    [sum] starts from the int [0]; at the first float it continues from
    [0.0] with rounded float additions.  (An empty cart gives the int [0],
    which [0.0] stands for: [checkout] only compares it with [0].) *)
Definition get_cart_total_float (lines : list (spec_float * Z)) : option spec_float :=
  fold_left (fun acc '(price, q) =>
               match acc, subtotal_float price q with
               | Some a, Some t => Some (SFadd 53 1024 a t)
               | _, _ => None
               end)
            lines (Some (S754_zero false)).

(** Mutations of a single [Product] object: the [quantity_available] setter,
    [decrease_quantity] (its boolean result dropped) and [increase_quantity]. *)
Inductive product_op :=
  | SetQuantity (value : Z)
  | Decrease (amount : Z)
  | Increase (amount : Z).

Definition apply_product_op (p : Product) (o : product_op) : Product :=
  match o with
  | SetQuantity v => set_quantity_available p v
  | Decrease a => snd (decrease_quantity p a)
  | Increase a => increase_quantity p a
  end.

Definition run_product_ops (p : Product) (os : list product_op) : Product :=
  fold_left apply_product_op os p.

(** Every cart line has a positive quantity. *)
Definition lines_positive (s : ShoppingCart) : Prop :=
  forall k it, cart s !! k = Some it -> 0 < quantity it.

(** Façade calls in which [update_cart_quantity] is given a positive
    quantity. *)
Definition positive_update (o : op) : Prop :=
  match o with
  | UpdateCartQuantity _ q => 0 < q
  | _ => True
  end.

Inductive reachable_pos : ShoppingCart -> Prop :=
  | reachable_pos_init : reachable_pos init
  | reachable_pos_step o s s' :
      reachable_pos s -> positive_update o -> step o s = Some s' -> reachable_pos s'.

(** [s'] differs from [s] only in the available stock of the object [l],
    which moved by [delta]; the catalog and the id counter are unchanged. *)
Definition stock_moved (s s' : ShoppingCart) (l : loc) (delta : Z) : Prop :=
  stock_at (heap s') l = stock_at (heap s) l + delta /\
  (forall l', l' <> l -> heap s' !! l' = heap s !! l') /\
  (forall p, heap s !! l = Some p ->
     heap s' !! l = Some (with_quantity p (_quantity_available p + delta))) /\
  catalog s' = catalog s /\ _next_id s' = _next_id s.

(** ** The GUI handlers of [ShoppingCartApp]

    The answers of the [simpledialog] prompts are the handlers' arguments
    (we consider well-typed answers, not a cancelled dialog).  What a handler
    shows is a list of events: the message boxes, with their exact ASCII
    texts, and the lines appended to the output log.  The log lines and the
    payment box interpolate values into f-strings with emoji and the rupee
    sign; we keep the interpolated values and name the template. *)
Inductive ui_event :=
  | ErrorBox (msg : string)          (** [messagebox.showerror("Error", msg)] *)
  | InfoBox (title msg : string)     (** [messagebox.showinfo(title, msg)] *)
  | PaymentBox (total : Z)           (** [showinfo("Payment", f"... Total to Pay: ₹{total}")] *)
  | LogAddedProduct (pid name : string)  (** [f"✅ Added: {pid} - {name}\n"] *)
  | LogAddedToCart (qty : Z) (pid : string)  (** [f"🛒 Added {qty} of {pid} to cart.\n"] *)
  | LogUpdated (pid : string) (qty : Z)  (** [f"✏️ Updated {pid} to {qty}.\n"] *)
  | LogRemoved (pid : string)        (** [f"❌ Removed {pid} from cart.\n"] *)
  | LogOrderPlaced.                  (** ["\n✅ Order placed! Cart cleared.\n"] *)

(** [add_product_ui] *)
Definition add_product_ui (name : string) (price qty : Z) (s : ShoppingCart)
  : list ui_event * ShoppingCart :=
  let '(pid, s') := add_product name price qty s in
  ([LogAddedProduct pid name], s').

(** [add_to_cart_ui]: the quantity is asked only when the id is in the
    catalog.  [askinteger] answers [None] when the dialog is cancelled;
    [add_to_cart] then raises [TypeError] in [decrease_quantity]
    ([0 < None]). *)
Definition add_to_cart_ui (pid : string) (qty : option Z) (s : ShoppingCart)
  : option (list ui_event * ShoppingCart) :=
  match catalog s !! pid with
  | None => Some ([ErrorBox "Product ID not found."], s)
  | Some _ =>
      match qty with
      | None => None
      | Some q =>
          match add_to_cart pid q s with
          | None => None
          | Some (ok, s') =>
              if ok then Some ([LogAddedToCart q pid], s')
              else Some ([ErrorBox "Not enough stock."], s')
          end
      end
  end.

(** [update_cart_quantity_ui]: a cancelled quantity dialog ([None]) makes
    [update_cart_quantity] raise [TypeError] at [new_qty - current_qty]. *)
Definition update_cart_quantity_ui (pid : string) (qty : option Z) (s : ShoppingCart)
  : option (list ui_event * ShoppingCart) :=
  match cart s !! pid with
  | None => Some ([ErrorBox "Item not in cart."], s)
  | Some _ =>
      match qty with
      | None => None
      | Some q =>
          match update_cart_quantity pid q s with
          | None => None
          | Some (ok, s') =>
              if ok then Some ([LogUpdated pid q], s')
              else Some ([ErrorBox "Not enough stock to increase."], s')
          end
      end
  end.

(** [remove_from_cart_ui] *)
Definition remove_from_cart_ui (pid : string) (s : ShoppingCart)
  : option (list ui_event * ShoppingCart) :=
  match remove_from_cart pid s with
  | None => None
  | Some (ok, s') =>
      if ok then Some ([LogRemoved pid], s')
      else Some ([ErrorBox "Item not in cart."], s')
  end.

(** [checkout] *)
Definition checkout (s : ShoppingCart) : option (list ui_event * ShoppingCart) :=
  match get_cart_total s with
  | None => None
  | Some (total, s1) =>
      if total =? 0 then Some ([InfoBox "Checkout" "Cart is empty."], s1)
      else Some ([PaymentBox total; LogOrderPlaced], clear_cart s1)
  end.

(** Façade calls in which every product is created with a non-negative
    stock. *)
Definition nonneg_product (o : op) : Prop :=
  match o with
  | AddProduct _ _ q => 0 <= q
  | _ => True
  end.

Inductive reachable_nonneg : ShoppingCart -> Prop :=
  | reachable_nonneg_init : reachable_nonneg init
  | reachable_nonneg_step o s s' :
      reachable_nonneg s -> nonneg_product o -> step o s = Some s' -> reachable_nonneg s'.

(** Replace the product stored at [l] by [p] when the two agree field by
    field (used when stock moves back and forth). *)
Ltac restore_product p :=
  match goal with
  | |- context [<[?l := ?X]> (heap ?s)] =>
      replace X with p
        by (destruct p; cbv [increase_quantity with_quantity]; simpl; f_equal; lia)
  end.

(** Split a method body on every lookup, bind and test it performs. *)
Ltac op_cases :=
  repeat (case_match
          || match goal with
             | |- context [?m ≫= _] => destruct m eqn:?; simpl
             end).

(** ** Identifier formatting *)

Lemma parse_digits_zero (t : string) :
  parse_digits (String "0" t) = parse_digits t.
Proof.
  unfold parse_digits; simpl.
  destruct (NilEmpty.uint_of_string t); reflexivity.
Qed.

Lemma parse_digits_zeros (k : nat) (t : string) :
  parse_digits (zeros k ++ t) = parse_digits t.
Proof.
  induction k as [|k IH]; [reflexivity|].
  change (zeros (S k) ++ t)%string with (String "0" (zeros k ++ t)).
  rewrite parse_digits_zero; exact IH.
Qed.

Lemma parse_decimal_digits (n : Z) :
  parse_digits (decimal_digits n) = Some (Z.to_N n).
Proof.
  unfold decimal_digits.
  rewrite <- (Unsigned.of_to (Z.to_N n)) at 2.
  generalize (N.to_uint (Z.to_N n)) as u; intros u.
  unfold parse_digits, NilZero.string_of_uint.
  destruct u; try (rewrite NilEmpty.usu; reflexivity); reflexivity.
Qed.

Lemma format_03d_inj (a b : Z) :
  0 <= a -> 0 <= b -> format_03d a = format_03d b -> a = b.
Proof.
  intros Ha Hb E. unfold format_03d in E.
  destruct (Z.ltb_spec a 0); [lia|]. destruct (Z.ltb_spec b 0); [lia|].
  unfold zero_pad in E.
  apply (f_equal parse_digits) in E.
  rewrite !parse_digits_zeros, !parse_decimal_digits in E.
  injection E as E. lia.
Qed.

Lemma pid_of_inj (a b : Z) :
  0 <= a -> 0 <= b -> pid_of a = pid_of b -> a = b.
Proof.
  unfold pid_of; simpl. intros Ha Hb E. injection E as E.
  now apply format_03d_inj.
Qed.

(** ** The state invariant *)

Lemma wf_init : wf init.
Proof.
  split; simpl.
  - reflexivity.
  - intros k l. rewrite lookup_empty. split; [discriminate|lia].
  - intros k it H. rewrite lookup_empty in H. discriminate.
Qed.

(** An operation that only updates objects in place and edits the cart keeps
    the invariant as long as the new cart lines point at catalog objects. *)
Lemma wf_frame (s s' : ShoppingCart) :
  wf s ->
  length (heap s') = length (heap s) ->
  catalog s' = catalog s ->
  _next_id s' = _next_id s ->
  (forall k it, cart s' !! k = Some it -> catalog s !! k = Some (product it)) ->
  wf s'.
Proof.
  intros [Hn Hc Hk] Hlen Hcat Hnext Hcart. split.
  - rewrite Hnext, Hlen. exact Hn.
  - intros k l. rewrite Hcat, Hlen. apply Hc.
  - intros k it H. rewrite Hcat. eauto.
Qed.

Lemma wf_heap_lookup (s : ShoppingCart) (k : string) (l : loc) :
  wf s -> catalog s !! k = Some l -> exists p, heap s !! l = Some p.
Proof.
  intros Hwf H. apply (wf_catalog s Hwf) in H as [Hl _].
  destruct (heap s !! l) eqn:E; [eauto|].
  apply lookup_ge_None in E. lia.
Qed.

Lemma wf_add_product (s : ShoppingCart) (name : string) (price qty : Z) :
  wf s -> wf (add_product name price qty s).2.
Proof.
  intros [Hn Hc Hk]. unfold add_product, generate_product_id; simpl.
  split; simpl; rewrite ?length_app; simpl.
  - lia.
  - intros k l. rewrite lookup_insert. case_decide as Hkey.
    + subst k. split.
      * intros [= <-]. split; [lia|]. f_equal. lia.
      * intros [Hl Hpid]. rewrite Hn in Hpid.
        apply pid_of_inj in Hpid; [|lia|lia]. f_equal. lia.
    + rewrite Hc. split.
      * intros [Hl Hpid]. split; [lia|exact Hpid].
      * intros [Hl Hpid]. split; [|exact Hpid].
        destruct (decide (l = length (heap s))) as [->|]; [|lia].
        exfalso. apply Hkey. rewrite Hpid, Hn. reflexivity.
  - intros k it H. apply Hk in H as H'. rewrite lookup_insert.
    case_decide as Hkey; [|exact H'].
    exfalso. apply Hc in H' as [Hl Hpid]. rewrite <- Hkey, Hn in Hpid.
    apply pid_of_inj in Hpid; lia.
Qed.

Lemma wf_add_to_cart (s s' : ShoppingCart) (pid : string) (qty : Z) (b : bool) :
  wf s -> add_to_cart pid qty s = Some (b, s') -> wf s'.
Proof.
  intros Hwf. unfold add_to_cart.
  destruct (catalog s !! pid) as [l|] eqn:Hl; [|intros [= _ <-]; exact Hwf].
  destruct (heap s !! l) as [p|] eqn:Hp; simpl; [|discriminate].
  destruct (decrease_quantity p qty) as [[] p'].
  2: intros [= _ <-]; exact Hwf.
  destruct (cart s !! pid) as [it|] eqn:Hit; intros [= _ <-];
    (apply (wf_frame s); [exact Hwf|apply length_insert|reflexivity|reflexivity|]);
    simpl; intros k it' H; rewrite lookup_insert in H; case_decide as Hkey;
    try (eapply wf_cart; eassumption); injection H as <-; subst k; simpl.
  - eapply wf_cart; eassumption.
  - exact Hl.
Qed.

Lemma wf_update_cart_quantity (s s' : ShoppingCart) (pid : string) (q : Z) (b : bool) :
  wf s -> update_cart_quantity pid q s = Some (b, s') -> wf s'.
Proof.
  intros Hwf. unfold update_cart_quantity.
  destruct (cart s !! pid) as [item|] eqn:Hit; [|intros [= _ <-]; exact Hwf].
  destruct (heap s !! product item) as [p|] eqn:Hp; simpl; [|discriminate].
  assert (Hframe : forall k it', <[pid := mkCartItem (product item) q]> (cart s) !! k = Some it' ->
            catalog s !! k = Some (product it')).
  { intros k it' H. rewrite lookup_insert in H. case_decide as Hkey.
    - injection H as <-. subst k; simpl. eapply wf_cart; eassumption.
    - eapply wf_cart; eassumption. }
  destruct (q - quantity item =? 0); [intros [= _ <-]; exact Hwf|].
  destruct (0 <? q - quantity item).
  - destruct (q - quantity item <=? _quantity_available p); [|intros [= _ <-]; exact Hwf].
    destruct (decrease_quantity p (q - quantity item)) as [ok p'].
    intros [= _ <-]. apply (wf_frame s); simpl; auto using length_insert.
  - intros [= _ <-]. apply (wf_frame s); simpl; auto using length_insert.
Qed.

Lemma wf_remove_from_cart (s s' : ShoppingCart) (pid : string) (b : bool) :
  wf s -> remove_from_cart pid s = Some (b, s') -> wf s'.
Proof.
  intros Hwf. unfold remove_from_cart.
  destruct (cart s !! pid) as [item|] eqn:Hit; [|intros [= _ <-]; exact Hwf].
  destruct (catalog s !! pid) as [l|] eqn:Hl; simpl; [|discriminate].
  destruct (heap s !! l) as [p|] eqn:Hp; simpl; [|discriminate].
  intros [= _ <-]. apply (wf_frame s); simpl; auto using length_insert.
  intros k it H. rewrite lookup_delete in H. case_decide; [discriminate|].
  eapply wf_cart; eassumption.
Qed.

Lemma get_cart_total_state (s s' : ShoppingCart) (t : Z) :
  get_cart_total s = Some (t, s') -> s' = s.
Proof.
  unfold get_cart_total.
  destruct (map_fold _ _ _); simpl; [intros [= _ <-]; reflexivity|discriminate].
Qed.

Lemma wf_step (o : op) (s s' : ShoppingCart) :
  wf s -> step o s = Some s' -> wf s'.
Proof.
  intros Hwf. destruct o; simpl.
  - intros [= <-]. now apply wf_add_product.
  - destruct (add_to_cart pid qty s) as [[b s1]|] eqn:E; simpl; [|discriminate].
    intros [= <-]. eapply wf_add_to_cart; eassumption.
  - destruct (update_cart_quantity pid new_qty s) as [[b s1]|] eqn:E; simpl; [|discriminate].
    intros [= <-]. eapply wf_update_cart_quantity; eassumption.
  - destruct (remove_from_cart pid s) as [[b s1]|] eqn:E; simpl; [|discriminate].
    intros [= <-]. eapply wf_remove_from_cart; eassumption.
  - destruct (get_cart_total s) as [[t s1]|] eqn:E; simpl; [|discriminate].
    intros [= <-]. apply get_cart_total_state in E. subst. exact Hwf.
  - intros [= <-]. apply (wf_frame s); try reflexivity; [exact Hwf|].
    simpl. intros k it H. rewrite lookup_empty in H. discriminate.
Qed.

Lemma reachable_wf (s : ShoppingCart) : reachable s -> wf s.
Proof.
  induction 1 as [|o s s' _ IH Hstep]; [exact wf_init|].
  eapply wf_step; eassumption.
Qed.

Lemma reachable_exec (os : list op) (s s' : ShoppingCart) :
  reachable s -> exec os s = Some s' -> reachable s'.
Proof.
  revert s. induction os as [|o os IH]; simpl; intros s Hr E.
  - congruence.
  - destruct (step o s) as [s1|] eqn:E1; simpl in E; [|discriminate].
    eapply IH; [|exact E]. exact (reachable_step o s s1 Hr E1).
Qed.

Lemma reachable_scenario : reachable scenario_state.
Proof.
  apply (reachable_exec [AddProduct "Pen" 10 5; AddProduct "Book" 50 2; AddToCart "PID001" 3] init);
    [constructor|reflexivity].
Qed.

(** ** Stock and reservations *)

Lemma stock_at_insert (h : heap_t) (l0 l : loc) (p p' : Product) :
  h !! l0 = Some p ->
  stock_at (<[l0 := p']> h) l =
    stock_at h l + (if decide (l = l0) then _quantity_available p' - _quantity_available p else 0).
Proof.
  intros Hp. unfold stock_at. case_decide as E.
  - subst l. rewrite list_lookup_insert_eq by (eapply lookup_lt_Some; eassumption).
    rewrite Hp. lia.
  - rewrite list_lookup_insert_ne by congruence. lia.
Qed.

Lemma reserved_insert (l : loc) (c : gmap string CartItem) (k : string) (it : CartItem) :
  reserved l (<[k := it]> c) = contrib l it + reserved l (delete k c).
Proof.
  rewrite <- insert_delete_eq. unfold reserved.
  rewrite map_fold_insert_L; [reflexivity| |apply lookup_delete_eq].
  intros. lia.
Qed.

Lemma reserved_delete (l : loc) (c : gmap string CartItem) (k : string) (it : CartItem) :
  c !! k = Some it -> reserved l c = contrib l it + reserved l (delete k c).
Proof.
  intros H. unfold reserved.
  rewrite (map_fold_delete_L _ _ k it c); [reflexivity| |exact H].
  intros. lia.
Qed.

Lemma reserved_none (l : loc) (c : gmap string CartItem) :
  (forall k it, c !! k = Some it -> product it <> l) -> reserved l c = 0.
Proof.
  induction c as [|k it c Hnone IH] using map_ind; intros Hc.
  - reflexivity.
  - rewrite reserved_insert, delete_id by exact Hnone.
    unfold contrib. case_decide as E.
    + exfalso. apply (Hc k it); [apply lookup_insert_eq|exact E].
    + rewrite IH; [reflexivity|].
      intros k' it' H. apply (Hc k' it').
      rewrite lookup_insert_ne; [exact H|congruence].
Qed.

Lemma add_to_cart_total (s s' : ShoppingCart) (pid : string) (q : Z) (b : bool) (l : loc) :
  wf s -> add_to_cart pid q s = Some (b, s') -> product_total s' l = product_total s l.
Proof.
  intros Hwf. unfold add_to_cart.
  destruct (catalog s !! pid) as [lc|] eqn:Hl; [|intros [= _ <-]; reflexivity].
  destruct (heap s !! lc) as [p|] eqn:Hp; simpl; [|discriminate].
  unfold decrease_quantity.
  destruct (_ && _) eqn:Hok; [|intros [= _ <-]; reflexivity].
  unfold product_total.
  destruct (cart s !! pid) as [it|] eqn:Hit; intros [= _ <-]; simpl;
    rewrite (stock_at_insert _ _ _ p) by exact Hp; rewrite reserved_insert.
  - assert (Hlc : product it = lc).
    { apply (wf_cart s Hwf) in Hit. congruence. }
    rewrite (reserved_delete l (cart s) pid it Hit).
    unfold contrib; simpl. repeat case_decide; simpl; lia.
  - rewrite delete_id by exact Hit.
    unfold contrib; simpl. repeat case_decide; simpl; lia.
Qed.

Lemma update_cart_quantity_total (s s' : ShoppingCart) (pid : string) (q : Z) (b : bool) (l : loc) :
  update_cart_quantity pid q s = Some (b, s') -> product_total s' l = product_total s l.
Proof.
  unfold update_cart_quantity.
  destruct (cart s !! pid) as [item|] eqn:Hit; [|intros [= _ <-]; reflexivity].
  destruct (heap s !! product item) as [p|] eqn:Hp; simpl; [|discriminate].
  destruct (Z.eqb_spec (q - quantity item) 0); [intros [= _ <-]; reflexivity|].
  unfold product_total.
  destruct (Z.ltb_spec 0 (q - quantity item)).
  - destruct (Z.leb_spec (q - quantity item) (_quantity_available p));
      [|intros [= _ <-]; reflexivity].
    unfold decrease_quantity.
    destruct (Z.ltb_spec 0 (q - quantity item)); [|lia].
    destruct (Z.leb_spec (q - quantity item) (_quantity_available p)); [|lia].
    simpl. intros [= _ <-]; simpl.
    rewrite (stock_at_insert _ _ _ p) by exact Hp.
    rewrite reserved_insert, (reserved_delete l (cart s) pid item Hit).
    unfold contrib; simpl. repeat case_decide; simpl; lia.
  - intros [= _ <-]; simpl.
    rewrite (stock_at_insert _ _ _ p) by exact Hp.
    rewrite reserved_insert, (reserved_delete l (cart s) pid item Hit).
    unfold contrib; simpl. repeat case_decide; simpl; lia.
Qed.

Lemma remove_from_cart_total (s s' : ShoppingCart) (pid : string) (b : bool) (l : loc) :
  wf s -> remove_from_cart pid s = Some (b, s') -> product_total s' l = product_total s l.
Proof.
  intros Hwf. unfold remove_from_cart.
  destruct (cart s !! pid) as [item|] eqn:Hit; [|intros [= _ <-]; reflexivity].
  destruct (catalog s !! pid) as [lc|] eqn:Hl; simpl; [|discriminate].
  destruct (heap s !! lc) as [p|] eqn:Hp; simpl; [|discriminate].
  assert (Hlc : product item = lc).
  { apply (wf_cart s Hwf) in Hit. congruence. }
  intros [= _ <-]. unfold product_total; simpl.
  rewrite (stock_at_insert _ _ _ p) by exact Hp.
  rewrite (reserved_delete l (cart s) pid item Hit).
  unfold contrib; simpl. repeat case_decide; simpl; lia.
Qed.

Lemma conserving_step (o : op) (s : ShoppingCart) :
  wf s -> conserving o ->
  exists s', step o s = Some s' /\ wf s' /\ catalog s' = catalog s /\
             forall l, product_total s' l = product_total s l.
Proof.
  intros Hwf Ho. destruct o as [| pid q | pid q | pid | |]; try contradiction; simpl.
  - destruct (add_to_cart pid q s) as [[b s']|] eqn:E.
    + exists s'. split; [reflexivity|]. split; [eapply wf_add_to_cart; eassumption|].
      split; [|intros l; eapply add_to_cart_total; eassumption].
      revert E. unfold add_to_cart. op_cases; intros; simplify_eq/=; reflexivity.
    + exfalso. revert E. unfold add_to_cart.
      destruct (catalog s !! pid) as [l|] eqn:Hl; [|discriminate].
      destruct (wf_heap_lookup s pid l Hwf Hl) as [p Hp]. rewrite Hp. simpl.
      repeat case_match; discriminate.
  - destruct (update_cart_quantity pid q s) as [[b s']|] eqn:E.
    + exists s'. split; [reflexivity|]. split; [eapply wf_update_cart_quantity; eassumption|].
      split; [|intros l; eapply update_cart_quantity_total; eassumption].
      revert E. unfold update_cart_quantity. op_cases; intros; simplify_eq/=; reflexivity.
    + exfalso. revert E. unfold update_cart_quantity.
      destruct (cart s !! pid) as [it|] eqn:Hit; [|discriminate].
      apply (wf_cart s Hwf) in Hit.
      destruct (wf_heap_lookup s pid (product it) Hwf Hit) as [p Hp]. rewrite Hp. simpl.
      repeat case_match; discriminate.
  - destruct (remove_from_cart pid s) as [[b s']|] eqn:E.
    + exists s'. split; [reflexivity|]. split; [eapply wf_remove_from_cart; eassumption|].
      split; [|intros l; eapply remove_from_cart_total; eassumption].
      revert E. unfold remove_from_cart. op_cases; intros; simplify_eq/=; reflexivity.
    + exfalso. revert E. unfold remove_from_cart.
      destruct (cart s !! pid) as [it|] eqn:Hit; [|discriminate].
      apply (wf_cart s Hwf) in Hit. rewrite Hit. simpl.
      destruct (wf_heap_lookup s pid (product it) Hwf Hit) as [p Hp]. rewrite Hp.
      discriminate.
Qed.

Lemma add_product_total (s : ShoppingCart) (name : string) (price qty : Z) :
  wf s ->
  catalog (add_product name price qty s).2 !! (add_product name price qty s).1
    = Some (length (heap s)) /\
  product_total (add_product name price qty s).2 (length (heap s)) = qty.
Proof.
  intros Hwf. unfold add_product, generate_product_id, product_total; simpl.
  split; [apply lookup_insert_eq|].
  unfold stock_at. rewrite lookup_app_r, Nat.sub_diag by lia. simpl.
  rewrite reserved_none; [lia|].
  intros k it H. apply (wf_cart s Hwf), (wf_catalog s Hwf) in H. lia.
Qed.

Lemma exec_conserving (os : list op) (s : ShoppingCart) :
  wf s -> Forall conserving os ->
  exists s', exec os s = Some s' /\ wf s' /\ catalog s' = catalog s /\
             forall l, product_total s' l = product_total s l.
Proof.
  intros Hwf Hos. revert s Hwf.
  induction Hos as [|o os Ho _ IH]; intros s Hwf.
  - exists s. auto.
  - destruct (conserving_step o s Hwf Ho) as (s1 & Hs1 & Hwf1 & Hc1 & Ht1).
    destruct (IH s1 Hwf1) as (s2 & Hs2 & Hwf2 & Hc2 & Ht2).
    exists s2. simpl. rewrite Hs1. simpl. split; [exact Hs2|].
    split; [exact Hwf2|]. split; [congruence|]. intros l. rewrite Ht2. apply Ht1.
Qed.

(** * Claims *)

(** C1: starting from any state reachable from a fresh Cart Manager, create a
    product with [add_product name price qty]; then along every sequence of
    [add_to_cart], [update_cart_quantity] and [remove_from_cart] calls (with
    any arguments) no call raises, and the product's available stock plus the
    quantity reserved for it across all cart lines stays equal to [qty], the
    stock it had at creation.  Since the sequence is arbitrary this holds at
    every point of it. *)
Theorem stock_conservation (s : ShoppingCart) (name : string) (price qty : Z)
    (os : list op) :
  reachable s -> Forall conserving os ->
  let '(pid, s1) := add_product name price qty s in
  exists s', exec os s1 = Some s' /\
    exists l, catalog s' !! pid = Some l /\ product_total s' l = qty.
Proof.
  intros Hr Hos. apply reachable_wf in Hr as Hwf.
  destruct (add_product_total s name price qty Hwf) as [Hcat Htot].
  destruct (add_product name price qty s) as [pid s1] eqn:E. simpl in Hcat, Htot.
  assert (Hwf1 : wf s1).
  { replace s1 with (add_product name price qty s).2 by (rewrite E; reflexivity).
    apply wf_add_product, Hwf. }
  destruct (exec_conserving os s1 Hwf1 Hos) as (s' & Hs' & _ & Hc & Ht).
  exists s'. split; [exact Hs'|]. exists (length (heap s)).
  rewrite Hc, Ht. auto.
Qed.

Lemma stock_conservation_witness :
  reachable init /\ Forall conserving [AddToCart "PID001" 3; UpdateCartQuantity "PID001" 1;
                                       RemoveFromCart "PID001"] /\
  (exists s', exec [AddToCart "PID001" 3; UpdateCartQuantity "PID001" 1; RemoveFromCart "PID001"]
                (add_product "Pen" 10 5 init).2 = Some s' /\
   exists l, catalog s' !! "PID001" = Some l /\ product_total s' l = 5).
Proof.
  split; [constructor|]. split; [repeat constructor|].
  exact (stock_conservation init "Pen" 10 5
           [AddToCart "PID001" 3; UpdateCartQuantity "PID001" 1; RemoveFromCart "PID001"]
           reachable_init (ltac:(repeat constructor))).
Defined.

Lemma stock_moved_insert (s : ShoppingCart) (l : loc) (p : Product) (delta : Z)
    (c : gmap string CartItem) :
  heap s !! l = Some p ->
  stock_moved s (mkShoppingCart (<[l := with_quantity p (_quantity_available p + delta)]> (heap s))
                   (catalog s) c (_next_id s)) l delta.
Proof.
  intros Hp. unfold stock_moved, stock_at; simpl.
  assert (Hl : (l < length (heap s))%nat) by (eapply lookup_lt_Some; eassumption).
  rewrite list_lookup_insert_eq by exact Hl. rewrite Hp. simpl.
  split; [reflexivity|]. split; [intros l' Hne; apply list_lookup_insert_ne; congruence|].
  split; [intros p' Hp'; congruence|]. auto.
Qed.

(** C2 (as stated): with the product in the catalog and enough stock for
    [qty], [add_to_cart] succeeds.  It does not for [qty = 0]. *)
Lemma add_to_cart_zero_qty_counterexample :
  ~ (forall s pid qty, reachable s ->
       (exists l, catalog s !! pid = Some l /\ qty <= stock_at (heap s) l) ->
       exists s', add_to_cart pid qty s = Some (true, s')).
Proof.
  intros H.
  assert (Hr : reachable (add_product "Pen" 10 5 init).2).
  { apply (reachable_step (AddProduct "Pen" 10 5) init); [constructor|reflexivity]. }
  destruct (H _ "PID001" 0 Hr) as [s' E].
  - exists 0%nat. split; [reflexivity|vm_compute; discriminate].
  - vm_compute in E. discriminate.
Qed.

(** C2 (amended): in every reachable state [add_to_cart pid qty] never
    raises; it fails, leaving the whole state unchanged, exactly when [pid]
    is absent from the catalog, or [qty <= 0], or [qty] exceeds the
    product's available stock; otherwise it succeeds, deducts [qty] from the
    stock of the catalog's object for [pid] (nothing else in the heap, the
    catalog or the counter changes), and sets the cart line for [pid] to
    reference that object with its old quantity (0 when there was no line)
    plus [qty], leaving the other lines unchanged. *)
Theorem add_to_cart_spec (s : ShoppingCart) (pid : string) (qty : Z) :
  reachable s ->
  exists b s', add_to_cart pid qty s = Some (b, s') /\
    (b = false <-> catalog s !! pid = None \/ qty <= 0 \/
                  exists l, catalog s !! pid = Some l /\ stock_at (heap s) l < qty) /\
    (b = false -> s' = s) /\
    (b = true -> exists l, catalog s !! pid = Some l /\ stock_moved s s' l (- qty) /\
       cart s' = <[pid := mkCartItem l (match cart s !! pid with
                                        | Some it => quantity it
                                        | None => 0 end + qty)]> (cart s)).
Proof.
  intros Hr. apply reachable_wf in Hr as Hwf. unfold add_to_cart.
  destruct (catalog s !! pid) as [l|] eqn:Hl.
  2:{ exists false, s. split; [reflexivity|]. split; [tauto|]. split; [auto|discriminate]. }
  destruct (wf_heap_lookup s pid l Hwf Hl) as [p Hp]. rewrite Hp. simpl.
  assert (Hst : stock_at (heap s) l = _quantity_available p) by (unfold stock_at; rewrite Hp; reflexivity).
  unfold decrease_quantity.
  destruct (Z.ltb_spec 0 qty); destruct (Z.leb_spec qty (_quantity_available p)); simpl.
  - assert (Hline : forall it, cart s !! pid = Some it -> product it = l).
    { intros it Hit. apply (wf_cart s Hwf) in Hit. congruence. }
    replace (_quantity_available p - qty) with (_quantity_available p + - qty) by lia.
    destruct (cart s !! pid) as [it|] eqn:Hit.
    + eexists true, _. split; [reflexivity|]. split.
      { split; [discriminate|]. intros [?|[?|(l' & Hl' & ?)]]; [congruence|lia|].
        assert (l' = l) by congruence. subst l'. lia. }
      split; [discriminate|]. intros _. exists l. split; [reflexivity|].
      split; [apply stock_moved_insert, Hp|]. simpl. rewrite (Hline it); reflexivity.
    + eexists true, _. split; [reflexivity|]. split.
      { split; [discriminate|]. intros [?|[?|(l' & Hl' & ?)]]; [congruence|lia|].
        assert (l' = l) by congruence. subst l'. lia. }
      split; [discriminate|]. intros _. exists l. split; [reflexivity|].
      split; [apply stock_moved_insert, Hp|]. reflexivity.
  - exists false, s. split; [reflexivity|]. split; [|split; [auto|discriminate]].
    split; [intros _; right; right; exists l; split; [reflexivity|lia]|auto].
  - exists false, s. split; [reflexivity|]. split; [|split; [auto|discriminate]].
    split; [intros _; right; left; lia|auto].
  - exists false, s. split; [reflexivity|]. split; [|split; [auto|discriminate]].
    split; [intros _; right; left; lia|auto].
Qed.

Lemma add_to_cart_spec_witness :
  reachable scenario_state /\
  exists b s', add_to_cart "PID001" 3 scenario_state = Some (b, s') /\
    (b = false <-> catalog scenario_state !! "PID001" = None \/ 3 <= 0 \/
       exists l, catalog scenario_state !! "PID001" = Some l /\
                 stock_at (heap scenario_state) l < 3) /\
    (b = false -> s' = scenario_state) /\
    (b = true -> exists l, catalog scenario_state !! "PID001" = Some l /\
       stock_moved scenario_state s' l (- 3) /\
       cart s' = <[ "PID001" := mkCartItem l (match cart scenario_state !! "PID001" with
                                          | Some it => quantity it
                                          | None => 0 end + 3)]> (cart scenario_state)).
Proof.
  pose proof reachable_scenario as Hr. split; [exact Hr|]. exact (add_to_cart_spec _ "PID001" 3 Hr).
Defined.

(** C3: in every reachable state, [update_cart_quantity pid new_qty] fails
    without mutation when [pid] has no cart line; otherwise, with
    [diff = new_qty - current_qty] and the line's product (the object it
    references): [diff = 0] succeeds with nothing changed; [0 < diff <= stock]
    succeeds, deducting [diff] from that product's stock and setting the line
    to [new_qty]; [0 < diff] with [stock < diff] fails with nothing changed;
    [diff < 0] succeeds, returning [-diff] units to the stock and setting the
    line to [new_qty]. *)
Theorem update_cart_quantity_spec (s : ShoppingCart) (pid : string) (new_qty : Z) :
  reachable s ->
  (cart s !! pid = None -> update_cart_quantity pid new_qty s = Some (false, s)) /\
  forall item, cart s !! pid = Some item ->
    let l := product item in
    let diff := new_qty - quantity item in
    (diff = 0 -> update_cart_quantity pid new_qty s = Some (true, s)) /\
    (0 < diff -> diff <= stock_at (heap s) l ->
       exists s', update_cart_quantity pid new_qty s = Some (true, s') /\
         stock_moved s s' l (- diff) /\ cart s' = <[pid := mkCartItem l new_qty]> (cart s)) /\
    (0 < diff -> stock_at (heap s) l < diff ->
       update_cart_quantity pid new_qty s = Some (false, s)) /\
    (diff < 0 ->
       exists s', update_cart_quantity pid new_qty s = Some (true, s') /\
         stock_moved s s' l (- diff) /\ cart s' = <[pid := mkCartItem l new_qty]> (cart s)).
Proof.
  intros Hr. apply reachable_wf in Hr as Hwf. unfold update_cart_quantity.
  split; [intros ->; reflexivity|].
  intros item Hit. rewrite Hit. simpl.
  pose proof (wf_cart s Hwf pid item Hit) as Hl.
  destruct (wf_heap_lookup s pid (product item) Hwf Hl) as [p Hp]. rewrite Hp. simpl.
  assert (Hst : stock_at (heap s) (product item) = _quantity_available p)
    by (unfold stock_at; rewrite Hp; reflexivity).
  rewrite Hst.
  split; [|split; [|split]].
  - intros E. rewrite E. reflexivity.
  - intros Hpos Hle.
    destruct (Z.eqb_spec (new_qty - quantity item) 0); [lia|].
    destruct (Z.ltb_spec 0 (new_qty - quantity item)); [|lia].
    destruct (Z.leb_spec (new_qty - quantity item) (_quantity_available p)); [|lia].
    unfold decrease_quantity.
    destruct (Z.ltb_spec 0 (new_qty - quantity item)); [|lia].
    destruct (Z.leb_spec (new_qty - quantity item) (_quantity_available p)); [|lia].
    simpl. eexists. split; [reflexivity|]. split; [|reflexivity].
    replace (_quantity_available p - (new_qty - quantity item))
      with (_quantity_available p + - (new_qty - quantity item)) by lia.
    apply stock_moved_insert, Hp.
  - intros Hpos Hlt.
    destruct (Z.eqb_spec (new_qty - quantity item) 0); [lia|].
    destruct (Z.ltb_spec 0 (new_qty - quantity item)); [|lia].
    destruct (Z.leb_spec (new_qty - quantity item) (_quantity_available p)); [lia|].
    reflexivity.
  - intros Hneg.
    destruct (Z.eqb_spec (new_qty - quantity item) 0); [lia|].
    destruct (Z.ltb_spec 0 (new_qty - quantity item)); [lia|].
    eexists. split; [reflexivity|]. split; [|reflexivity].
    apply stock_moved_insert, Hp.
Qed.

Lemma update_cart_quantity_spec_witness :
  reachable scenario_state /\
  ((cart scenario_state !! "PID001" = None ->
    update_cart_quantity "PID001" 1 scenario_state
      = Some (false, scenario_state)) /\
   forall item, cart scenario_state !! "PID001" = Some item ->
    let l := product item in
    let diff := 1 - quantity item in
    (diff = 0 -> update_cart_quantity "PID001" 1 scenario_state
                   = Some (true, scenario_state)) /\
    (0 < diff -> diff <= stock_at (heap scenario_state) l ->
       exists s', update_cart_quantity "PID001" 1 scenario_state = Some (true, s') /\
         stock_moved scenario_state s' l (- diff) /\
         cart s' = <["PID001" := mkCartItem l 1]> (cart scenario_state)) /\
    (0 < diff -> stock_at (heap scenario_state) l < diff ->
       update_cart_quantity "PID001" 1 scenario_state
         = Some (false, scenario_state)) /\
    (diff < 0 ->
       exists s', update_cart_quantity "PID001" 1 scenario_state = Some (true, s') /\
         stock_moved scenario_state s' l (- diff) /\
         cart s' = <["PID001" := mkCartItem l 1]> (cart scenario_state))).
Proof.
  pose proof reachable_scenario as Hr. split; [exact Hr|]. exact (update_cart_quantity_spec _ "PID001" 1 Hr).
Defined.

(** C4: in every reachable state, [remove_from_cart pid] fails without
    mutation when [pid] has no cart line; otherwise it never raises,
    succeeds, adds the line's full quantity back to the stock of the product
    the line references (nothing else in the heap, the catalog or the counter
    changes), deletes the line, and an immediately repeated call fails. *)
Theorem remove_from_cart_spec (s : ShoppingCart) (pid : string) :
  reachable s ->
  (cart s !! pid = None -> remove_from_cart pid s = Some (false, s)) /\
  forall item, cart s !! pid = Some item ->
    exists s', remove_from_cart pid s = Some (true, s') /\
      stock_moved s s' (product item) (quantity item) /\
      cart s' = delete pid (cart s) /\
      remove_from_cart pid s' = Some (false, s').
Proof.
  intros Hr. apply reachable_wf in Hr as Hwf. unfold remove_from_cart.
  split; [intros ->; reflexivity|].
  intros item Hit. rewrite Hit.
  pose proof (wf_cart s Hwf pid item Hit) as Hl. rewrite Hl. simpl.
  destruct (wf_heap_lookup s pid (product item) Hwf Hl) as [p Hp]. rewrite Hp. simpl.
  eexists. split; [reflexivity|]. split; [apply stock_moved_insert, Hp|].
  split; [reflexivity|]. simpl. rewrite lookup_delete_eq. reflexivity.
Qed.

Lemma remove_from_cart_spec_witness :
  reachable scenario_state /\
  ((cart scenario_state !! "PID001" = None ->
    remove_from_cart "PID001" scenario_state = Some (false, scenario_state)) /\
   forall item, cart scenario_state !! "PID001" = Some item ->
    exists s', remove_from_cart "PID001" scenario_state = Some (true, s') /\
      stock_moved scenario_state s' (product item) (quantity item) /\
      cart s' = delete "PID001" (cart scenario_state) /\
      remove_from_cart "PID001" s' = Some (false, s')).
Proof.
  pose proof reachable_scenario as Hr. split; [exact Hr|].
  exact (remove_from_cart_spec scenario_state "PID001" Hr).
Defined.

Lemma cart_total_fold (h : heap_t) (c : gmap string CartItem) :
  (forall k it, c !! k = Some it -> exists p, h !! product it = Some p) ->
  map_fold (fun _ it acc => a ← acc; st ← subtotal h it; Some (a + st)) (Some 0) c =
  Some (map_fold (fun _ it acc => line_value h it + acc) 0 c).
Proof.
  induction c as [|k it c Hnone IH] using map_ind; intros Hc.
  - rewrite !map_fold_empty. reflexivity.
  - rewrite map_fold_insert_L; [|intros; destruct y as [y|]; simpl;
      [destruct (subtotal h z1), (subtotal h z2); simpl; f_equal; lia|reflexivity]|exact Hnone].
    rewrite (map_fold_insert_L _ _ k it c); [|intros; lia|exact Hnone].
    rewrite IH; simpl.
    + destruct (Hc k it) as [p Hp]; [apply lookup_insert_eq|].
      unfold subtotal, line_value. rewrite Hp. simpl. f_equal. lia.
    + intros k' it' H. apply (Hc k'). rewrite lookup_insert_ne; [exact H|congruence].
Qed.


(** C6: [clear_cart] always empties the cart and leaves the product
    objects (hence every available stock), the catalog and the id counter
    unchanged. *)
Theorem clear_cart_spec (s : ShoppingCart) :
  cart (clear_cart s) = ∅ /\ heap (clear_cart s) = heap s /\
  (forall l, stock_at (heap (clear_cart s)) l = stock_at (heap s) l) /\
  catalog (clear_cart s) = catalog s /\ _next_id (clear_cart s) = _next_id s.
Proof. unfold clear_cart; simpl. repeat split. Qed.

(** C7 (as stated): no sequence of mutations drives a product's available
    quantity below zero.  [increase_quantity] has no guard: restocking a
    product of stock 5 by -10 leaves it at -5. *)
Lemma increase_negative_counterexample :
  ~ (forall p os, 0 <= _quantity_available p ->
       0 <= _quantity_available (run_product_ops p os)).
Proof.
  intros H.
  specialize (H (mkProduct "PID001" "Pen" 10 5) [Increase (-10)] ltac:(simpl; lia)).
  vm_compute in H. apply H. reflexivity.
Qed.

(** C7 (amended): the setter ignores negative values and otherwise stores
    the value; [decrease_quantity] succeeds exactly when
    [0 < amount <= available], then deducts [amount], and otherwise fails
    with the product unchanged; hence, from a non-negative quantity, every
    sequence of setter calls, [decrease_quantity] calls and
    [increase_quantity] calls with non-negative amounts keeps the quantity
    non-negative ([increase_quantity] itself checks nothing). *)
Theorem product_quantity_spec :
  (forall p v, v < 0 -> set_quantity_available p v = p) /\
  (forall p v, 0 <= v -> set_quantity_available p v = with_quantity p v) /\
  (forall p a, fst (decrease_quantity p a) = true <-> 0 < a <= _quantity_available p) /\
  (forall p a, 0 < a <= _quantity_available p ->
     snd (decrease_quantity p a) = with_quantity p (_quantity_available p - a)) /\
  (forall p a, ~ (0 < a <= _quantity_available p) -> decrease_quantity p a = (false, p)) /\
  (forall p a, increase_quantity p a = with_quantity p (_quantity_available p + a)) /\
  (forall p os, 0 <= _quantity_available p ->
     Forall (fun o => match o with Increase a => 0 <= a | _ => True end) os ->
     0 <= _quantity_available (run_product_ops p os)).
Proof.
  unfold set_quantity_available, decrease_quantity.
  split; [intros p v Hv; destruct (Z.leb_spec 0 v); [lia|reflexivity]|].
  split; [intros p v Hv; destruct (Z.leb_spec 0 v); [reflexivity|lia]|].
  split; [intros p a; destruct (Z.ltb_spec 0 a), (Z.leb_spec a (_quantity_available p));
          simpl; split; intros; try lia; try discriminate; reflexivity|].
  split; [intros p a Ha; destruct (Z.ltb_spec 0 a), (Z.leb_spec a (_quantity_available p));
          simpl; try lia; reflexivity|].
  split; [intros p a Ha; destruct (Z.ltb_spec 0 a), (Z.leb_spec a (_quantity_available p));
          simpl; try lia; reflexivity|].
  split; [reflexivity|].
  intros p os Hp Hos. unfold run_product_ops. revert p Hp.
  induction Hos as [|o os Ho _ IH]; intros p Hp; simpl; [exact Hp|].
  apply IH. destruct o as [v|a|a]; simpl.
  - unfold set_quantity_available. destruct (Z.leb_spec 0 v); simpl; lia.
  - unfold decrease_quantity.
    destruct (Z.ltb_spec 0 a), (Z.leb_spec a (_quantity_available p)); simpl; lia.
  - simpl in Ho. lia.
Qed.

Lemma reachable_pos_reachable (s : ShoppingCart) : reachable_pos s -> reachable s.
Proof.
  induction 1 as [|o s s' _ IH _ Hstep]; [constructor|].
  exact (reachable_step o s s' IH Hstep).
Qed.

Lemma lines_positive_insert (s : ShoppingCart) (pid : string) (it : CartItem) (k : string)
    (it' : CartItem) :
  lines_positive s -> 0 < quantity it ->
  <[pid := it]> (cart s) !! k = Some it' -> 0 < quantity it'.
Proof.
  intros Hpos Hit H. rewrite lookup_insert in H. case_decide.
  - congruence.
  - eapply Hpos; eassumption.
Qed.

Lemma lines_positive_step (o : op) (s s' : ShoppingCart) :
  lines_positive s -> positive_update o -> step o s = Some s' -> lines_positive s'.
Proof.
  intros Hpos Ho. destruct o as [n pr q|pid q|pid q|pid| |]; simpl.
  - intros [= <-]. exact Hpos.
  - destruct (add_to_cart pid q s) as [[b s1]|] eqn:E; simpl; [|discriminate].
    intros [= <-]. revert E. unfold add_to_cart, decrease_quantity.
    op_cases; intros; simplify_eq/=; try exact Hpos;
      match goal with H : (_ && _) = true |- _ =>
        apply andb_true_iff in H as [H1 _]; apply Z.ltb_lt in H1 end;
      intros k it' Hk; (eapply lines_positive_insert; [exact Hpos| |exact Hk]); simpl.
    + match goal with Hc : cart s !! pid = Some ?it |- _ => specialize (Hpos _ _ Hc) end. lia.
    + exact H1.
  - destruct (update_cart_quantity pid q s) as [[b s1]|] eqn:E; simpl; [|discriminate].
    intros [= <-]. revert E. unfold update_cart_quantity.
    op_cases; intros; simplify_eq/=; try exact Hpos;
      intros k it' Hk; (eapply lines_positive_insert; [exact Hpos| |exact Hk]); exact Ho.
  - destruct (remove_from_cart pid s) as [[b s1]|] eqn:E; simpl; [|discriminate].
    intros [= <-]. revert E. unfold remove_from_cart.
    op_cases; intros; simplify_eq/=; try exact Hpos.
    intros k it' Hk. simpl in Hk. rewrite lookup_delete in Hk. case_decide; [discriminate|].
    eapply Hpos; eassumption.
  - destruct (get_cart_total s) as [[t s1]|] eqn:E; simpl; [|discriminate].
    intros [= <-]. apply get_cart_total_state in E. subst. exact Hpos.
  - intros [= <-]. intros k it H. simpl in H. rewrite lookup_empty in H. discriminate.
Qed.

(** C8 (as stated): every reachable state has only positive cart lines.
    [update_cart_quantity "PID001" 0] keeps a line of quantity 0. *)
Lemma update_to_zero_counterexample :
  ~ (forall s, reachable s -> lines_positive s).
Proof.
  intros H.
  pose (os := [AddProduct "Pen" 10 5; AddToCart "PID001" 3; UpdateCartQuantity "PID001" 0]).
  pose (s := match exec os init with Some s => s | None => init end).
  assert (E : exec os init = Some s) by (vm_compute; reflexivity).
  assert (Hl : cart s !! "PID001" = Some (mkCartItem 0 0)) by (vm_compute; reflexivity).
  pose proof (H s (reachable_exec os init s reachable_init E) _ _ Hl) as Hq.
  simpl in Hq. lia.
Qed.

(** C8 (amended): in every state reachable from a fresh Cart Manager by
    façade calls in which [update_cart_quantity] only receives positive
    quantities, every cart line has a positive quantity; in such a state,
    [update_cart_quantity pid new_qty] with [new_qty <= 0] on a line of the
    cart succeeds and leaves the line in the cart with quantity [new_qty]. *)
Theorem lines_positive_spec :
  (forall s, reachable_pos s -> lines_positive s) /\
  (forall s pid item new_qty, reachable_pos s -> cart s !! pid = Some item -> new_qty <= 0 ->
     exists s', update_cart_quantity pid new_qty s = Some (true, s') /\
                cart s' !! pid = Some (mkCartItem (product item) new_qty)).
Proof.
  assert (Hinv : forall s, reachable_pos s -> lines_positive s).
  { induction 1 as [|o s s' _ IH Ho Hstep].
    - intros k it H. simpl in H. rewrite lookup_empty in H. discriminate.
    - eapply lines_positive_step; eassumption. }
  split; [exact Hinv|].
  intros s pid item new_qty Hr Hit Hn.
  pose proof (Hinv s Hr pid item Hit) as Hq.
  apply reachable_pos_reachable, reachable_wf in Hr as Hwf.
  pose proof (wf_cart s Hwf pid item Hit) as Hl.
  destruct (wf_heap_lookup s pid (product item) Hwf Hl) as [p Hp].
  unfold update_cart_quantity. rewrite Hit, Hp. simpl.
  destruct (Z.eqb_spec (new_qty - quantity item) 0); [lia|].
  destruct (Z.ltb_spec 0 (new_qty - quantity item)); [lia|].
  eexists. split; [reflexivity|]. simpl. apply lookup_insert_eq.
Qed.

(** C9: in every reachable state, [add_product] returns the identifier
    ["PID" ++ f"{_next_id:03d}"] for the current counter value (at least 1),
    which is not yet a key of the catalog; it increments the counter,
    allocates a new [Product] object with the given fields, maps the
    identifier to it (other catalog entries unchanged) and leaves the
    existing objects and the cart unchanged.  On a fresh instance the first
    two calls return ["PID001"] and ["PID002"], whatever their arguments. *)
Theorem add_product_spec (s : ShoppingCart) (name : string) (price qty : Z) :
  reachable s ->
  (let '(pid, s') := add_product name price qty s in
   pid = ("PID" ++ format_03d (_next_id s))%string /\ 1 <= _next_id s /\
   catalog s !! pid = None /\
   _next_id s' = _next_id s + 1 /\
   catalog s' = <[pid := length (heap s)]> (catalog s) /\
   heap s' = heap s ++ [mkProduct pid name price qty] /\
   cart s' = cart s) /\
  (forall n1 n2 p1 p2 q1 q2,
     (add_product n1 p1 q1 init).1 = "PID001"%string /\
     (add_product n2 p2 q2 (add_product n1 p1 q1 init).2).1 = "PID002"%string).
Proof.
  intros Hr. apply reachable_wf in Hr as Hwf.
  split; [|intros; split; reflexivity].
  unfold add_product, generate_product_id; simpl.
  pose proof (wf_next s Hwf) as Hn.
  split; [reflexivity|]. split; [lia|].
  split; [|repeat split].
  destruct (catalog s !! pid_of (_next_id s)) as [l|] eqn:E; [|reflexivity].
  exfalso. apply (wf_catalog s Hwf) in E as [Hl Hpid].
  rewrite Hn in Hpid. apply pid_of_inj in Hpid; lia.
Qed.

Lemma add_product_spec_witness :
  reachable scenario_state /\
  ((let '(pid, s') := add_product "Pen" 10 5 scenario_state in
    pid = ("PID" ++ format_03d (_next_id scenario_state))%string /\ 1 <= _next_id scenario_state /\
    catalog scenario_state !! pid = None /\
    _next_id s' = _next_id scenario_state + 1 /\
    catalog s' = <[pid := length (heap scenario_state)]> (catalog scenario_state) /\
    heap s' = heap scenario_state ++ [mkProduct pid "Pen" 10 5] /\
    cart s' = cart scenario_state) /\
   (forall n1 n2 p1 p2 q1 q2,
      (add_product n1 p1 q1 init).1 = "PID001"%string /\
      (add_product n2 p2 q2 (add_product n1 p1 q1 init).2).1 = "PID002"%string)).
Proof.
  pose proof reachable_scenario as Hr. split; [exact Hr|].
  exact (add_product_spec scenario_state "Pen" 10 5 Hr).
Defined.

(** C10: in every reachable state, every key of the cart is a key of the
    catalog, and the cart line references exactly the catalog's object for
    that key (an allocated one); consequently [remove_from_cart] on a key of
    the cart never raises and succeeds. *)
Theorem cart_refs_catalog (s : ShoppingCart) :
  reachable s ->
  forall k it, cart s !! k = Some it ->
    catalog s !! k = Some (product it) /\
    (exists p, heap s !! product it = Some p) /\
    exists s', remove_from_cart k s = Some (true, s').
Proof.
  intros Hr k it Hit. apply reachable_wf in Hr as Hwf.
  pose proof (wf_cart s Hwf k it Hit) as Hl.
  destruct (wf_heap_lookup s k (product it) Hwf Hl) as [p Hp].
  split; [exact Hl|]. split; [eauto|].
  unfold remove_from_cart. rewrite Hit, Hl. simpl. rewrite Hp. simpl. eauto.
Qed.

Lemma cart_refs_catalog_witness :
  reachable scenario_state /\
  (forall k it, cart scenario_state !! k = Some it ->
    catalog scenario_state !! k = Some (product it) /\
    (exists p, heap scenario_state !! product it = Some p) /\
    exists s', remove_from_cart k scenario_state = Some (true, s')).
Proof.
  pose proof reachable_scenario as Hr. split; [exact Hr|].
  exact (cart_refs_catalog scenario_state Hr).
Defined.

(** * Further properties of the cart methods and of the GUI handlers *)

Lemma state_eta (s : ShoppingCart) : mkShoppingCart (heap s) (catalog s) (cart s) (_next_id s) = s.
Proof. destruct s; reflexivity. Qed.

Lemma cart_item_eta (it : CartItem) : mkCartItem (product it) (quantity it) = it.
Proof. destruct it; reflexivity. Qed.

(** Putting a product that is not yet in the cart into it and removing it
    again gives back exactly the state we started from. *)
Theorem add_then_remove_roundtrip (s s1 : ShoppingCart) (pid : string) (qty : Z) :
  cart s !! pid = None ->
  add_to_cart pid qty s = Some (true, s1) ->
  remove_from_cart pid s1 = Some (true, s).
Proof.
  intros Hnone. unfold add_to_cart.
  destruct (catalog s !! pid) as [l|] eqn:Hl; [|discriminate].
  destruct (heap s !! l) as [p|] eqn:Hp; simpl; [|discriminate].
  unfold decrease_quantity. destruct (_ && _); [|discriminate].
  rewrite Hnone. intros [= <-]. unfold remove_from_cart; simpl.
  rewrite lookup_insert_eq. simpl. rewrite Hl. simpl.
  rewrite list_lookup_insert_eq by (eapply lookup_lt_Some; eassumption). simpl.
  rewrite list_insert_insert_eq. restore_product p.
  rewrite (list_insert_id _ _ _ Hp), (delete_insert_id _ _ _ Hnone).
  rewrite state_eta. reflexivity.
Qed.

Lemma add_then_remove_roundtrip_witness :
  cart (add_product "Pen" 10 5 init).2 !! "PID001" = None /\
  add_to_cart "PID001" 3 (add_product "Pen" 10 5 init).2 =
    Some (true, match add_to_cart "PID001" 3 (add_product "Pen" 10 5 init).2 with
                | Some (_, s1) => s1 | None => init end) /\
  remove_from_cart "PID001"
    (match add_to_cart "PID001" 3 (add_product "Pen" 10 5 init).2 with
     | Some (_, s1) => s1 | None => init end) = Some (true, (add_product "Pen" 10 5 init).2).
Proof.
  assert (H1 : cart (add_product "Pen" 10 5 init).2 !! "PID001" = None) by reflexivity.
  assert (H2 : add_to_cart "PID001" 3 (add_product "Pen" 10 5 init).2 =
    Some (true, match add_to_cart "PID001" 3 (add_product "Pen" 10 5 init).2 with
                | Some (_, s1) => s1 | None => init end)) by (vm_compute; reflexivity).
  split; [exact H1|]. split; [exact H2|].
  exact (add_then_remove_roundtrip _ _ "PID001" 3 H1 H2).
Defined.

(** A successful [update_cart_quantity] is undone by updating the line back
    to its previous quantity, provided the product's stock was not negative
    (the undo of a decrease has to take units back from the stock). *)
Theorem update_then_restore_roundtrip (s s1 : ShoppingCart) (pid : string)
    (item : CartItem) (new_qty : Z) :
  cart s !! pid = Some item ->
  0 <= stock_at (heap s) (product item) ->
  update_cart_quantity pid new_qty s = Some (true, s1) ->
  update_cart_quantity pid (quantity item) s1 = Some (true, s).
Proof.
  intros Hit Hst. unfold update_cart_quantity. rewrite Hit.
  destruct (heap s !! product item) as [p|] eqn:Hp; simpl; [|discriminate].
  unfold stock_at in Hst. rewrite Hp in Hst.
  assert (Hlt : (product item < length (heap s))%nat) by (eapply lookup_lt_Some; eassumption).
  destruct (Z.eqb_spec (new_qty - quantity item) 0) as [E|E].
  - intros [= <-]. rewrite Hit, Hp. simpl. rewrite Z.sub_diag. reflexivity.
  - destruct (Z.ltb_spec 0 (new_qty - quantity item)).
    + destruct (Z.leb_spec (new_qty - quantity item) (_quantity_available p)); [|discriminate].
      unfold decrease_quantity.
      destruct (Z.ltb_spec 0 (new_qty - quantity item)); [|lia].
      destruct (Z.leb_spec (new_qty - quantity item) (_quantity_available p)); [|lia].
      simpl. intros [= <-]. simpl.
      rewrite lookup_insert_eq. simpl. rewrite list_lookup_insert_eq by exact Hlt. simpl.
      destruct (Z.eqb_spec (quantity item - new_qty) 0); [lia|].
      destruct (Z.ltb_spec 0 (quantity item - new_qty)); [lia|].
      rewrite list_insert_insert_eq, insert_insert_eq. restore_product p.
      rewrite (list_insert_id _ _ _ Hp), cart_item_eta, (insert_id _ _ _ Hit).
      rewrite state_eta. reflexivity.
    + intros [= <-]. simpl.
      rewrite lookup_insert_eq. simpl. rewrite list_lookup_insert_eq by exact Hlt. simpl.
      destruct (Z.eqb_spec (quantity item - new_qty) 0); [lia|].
      destruct (Z.ltb_spec 0 (quantity item - new_qty)); [|lia].
      destruct (Z.leb_spec (quantity item - new_qty)
                  (_quantity_available p + - (new_qty - quantity item))); [|lia].
      unfold decrease_quantity. simpl.
      destruct (Z.ltb_spec 0 (quantity item - new_qty)); [|lia].
      destruct (Z.leb_spec (quantity item - new_qty)
                  (_quantity_available p + - (new_qty - quantity item))); [|lia].
      simpl. rewrite list_insert_insert_eq, insert_insert_eq. restore_product p.
      rewrite (list_insert_id _ _ _ Hp), cart_item_eta, (insert_id _ _ _ Hit).
      rewrite state_eta. reflexivity.
Qed.

Lemma update_then_restore_roundtrip_witness :
  cart scenario_state !! "PID001" = Some (mkCartItem 0 3) /\
  0 <= stock_at (heap scenario_state) (product (mkCartItem 0 3)) /\
  update_cart_quantity "PID001" 1 scenario_state =
    Some (true, match update_cart_quantity "PID001" 1 scenario_state with
                | Some (_, s1) => s1 | None => init end) /\
  update_cart_quantity "PID001" (quantity (mkCartItem 0 3))
    (match update_cart_quantity "PID001" 1 scenario_state with
     | Some (_, s1) => s1 | None => init end) = Some (true, scenario_state).
Proof.
  assert (H1 : cart scenario_state !! "PID001" = Some (mkCartItem 0 3)) by (vm_compute; reflexivity).
  assert (H2 : 0 <= stock_at (heap scenario_state) (product (mkCartItem 0 3)))
    by (vm_compute; discriminate).
  assert (H3 : update_cart_quantity "PID001" 1 scenario_state =
    Some (true, match update_cart_quantity "PID001" 1 scenario_state with
                | Some (_, s1) => s1 | None => init end)) by (vm_compute; reflexivity).
  split; [exact H1|]. split; [exact H2|]. split; [exact H3|].
  exact (update_then_restore_roundtrip _ _ "PID001" (mkCartItem 0 3) 1 H1 H2 H3).
Defined.

(** Two successful [add_to_cart] calls for the same id end in the same
    state as one call with the sum of the quantities. *)
Theorem add_to_cart_twice (s s1 s2 : ShoppingCart) (pid : string) (q1 q2 : Z) :
  add_to_cart pid q1 s = Some (true, s1) ->
  add_to_cart pid q2 s1 = Some (true, s2) ->
  add_to_cart pid (q1 + q2) s = Some (true, s2).
Proof.
  unfold add_to_cart.
  destruct (catalog s !! pid) as [l|] eqn:Hl; [|discriminate].
  destruct (heap s !! l) as [p|] eqn:Hp; simpl; [|discriminate].
  assert (Hlt : (l < length (heap s))%nat) by (eapply lookup_lt_Some; eassumption).
  unfold decrease_quantity.
  destruct (Z.ltb_spec 0 q1), (Z.leb_spec q1 (_quantity_available p)); simpl;
    try discriminate.
  destruct (cart s !! pid) as [it|] eqn:Hit; intros [= <-]; simpl;
    rewrite Hl; simpl; rewrite list_lookup_insert_eq by exact Hlt; simpl;
    destruct (Z.ltb_spec 0 q2), (Z.leb_spec q2 (_quantity_available p - q1)); simpl;
    try discriminate;
    destruct (Z.ltb_spec 0 (q1 + q2)), (Z.leb_spec (q1 + q2) (_quantity_available p));
    try lia; simpl; rewrite lookup_insert_eq; simpl; intros [= <-];
    rewrite list_insert_insert_eq, insert_insert_eq;
    replace (_quantity_available p - q1 - q2) with (_quantity_available p - (q1 + q2)) by lia;
    try replace (quantity it + q1 + q2) with (quantity it + (q1 + q2)) by lia;
    reflexivity.
Qed.

Lemma add_to_cart_twice_witness :
  add_to_cart "PID001" 1 scenario_state =
    Some (true, match add_to_cart "PID001" 1 scenario_state with
                | Some (_, s1) => s1 | None => init end) /\
  add_to_cart "PID001" 1 (match add_to_cart "PID001" 1 scenario_state with
                          | Some (_, s1) => s1 | None => init end) =
    Some (true, match add_to_cart "PID001" 2 scenario_state with
                | Some (_, s2) => s2 | None => init end) /\
  add_to_cart "PID001" (1 + 1) scenario_state =
    Some (true, match add_to_cart "PID001" 2 scenario_state with
                | Some (_, s2) => s2 | None => init end).
Proof.
  assert (H1 : add_to_cart "PID001" 1 scenario_state =
    Some (true, match add_to_cart "PID001" 1 scenario_state with
                | Some (_, s1) => s1 | None => init end)) by (vm_compute; reflexivity).
  assert (H2 : add_to_cart "PID001" 1 (match add_to_cart "PID001" 1 scenario_state with
                          | Some (_, s1) => s1 | None => init end) =
    Some (true, match add_to_cart "PID001" 2 scenario_state with
                | Some (_, s2) => s2 | None => init end)) by (vm_compute; reflexivity).
  split; [exact H1|]. split; [exact H2|].
  exact (add_to_cart_twice _ _ _ "PID001" 1 1 H1 H2).
Defined.

Lemma stock_at_app (h : heap_t) (x : Product) (l : loc) :
  stock_at (h ++ [x]) l =
    if decide (l = length h) then _quantity_available x else stock_at h l.
Proof.
  unfold stock_at. case_decide as E.
  - subst l. rewrite lookup_app_r, Nat.sub_diag by lia. reflexivity.
  - destruct (decide (l < length h)%nat) as [Hlt|Hge].
    + rewrite lookup_app_l by exact Hlt. reflexivity.
    + rewrite (proj2 (lookup_ge_None (h ++ [x]) l)) by (rewrite length_app; simpl; lia).
      rewrite (proj2 (lookup_ge_None h l)) by lia. reflexivity.
Qed.

(** In a well-formed state a product is referenced by at most one cart
    line: the line of its own id. *)
Lemma reserved_single (s : ShoppingCart) (k : string) (it : CartItem) :
  wf s -> cart s !! k = Some it -> reserved (product it) (cart s) = quantity it.
Proof.
  intros Hwf Hit. rewrite (reserved_delete _ _ k it Hit), reserved_none.
  - unfold contrib. rewrite decide_True by reflexivity. lia.
  - intros k' it' H E. rewrite lookup_delete in H. case_decide as Hk; [discriminate|].
    apply (wf_cart s Hwf) in H, Hit. rewrite E in H.
    apply (wf_catalog s Hwf) in H as [_ H1]. apply (wf_catalog s Hwf) in Hit as [_ H2].
    congruence.
Qed.

Lemma nonneg_step (o : op) (s s' : ShoppingCart) :
  wf s -> (forall l, 0 <= stock_at (heap s) l /\ 0 <= product_total s l) ->
  nonneg_product o -> step o s = Some s' ->
  forall l, 0 <= stock_at (heap s') l /\ 0 <= product_total s' l.
Proof.
  intros Hwf Hinv Ho. destruct o as [n pr q|pid q|pid q|pid| |]; simpl in Ho |- *.
  - intros [= <-] l. destruct (add_product_total s n pr q Hwf) as [_ Htot].
    unfold product_total, add_product, generate_product_id in *; simpl in *.
    rewrite stock_at_app in Htot |- *.
    destruct (decide (l = length (heap s))) as [->|Hne]; [idtac|apply Hinv].
    rewrite decide_True in Htot by reflexivity. simpl in *. lia.
  - destruct (add_to_cart pid q s) as [[b s1]|] eqn:E; simpl; [|discriminate].
    intros [= <-] l. rewrite (add_to_cart_total s s1 pid q b l Hwf E).
    split; [|apply Hinv]. revert E. unfold add_to_cart.
    destruct (catalog s !! pid) as [lc|]; [|intros [= _ <-]; apply Hinv].
    destruct (heap s !! lc) as [p|] eqn:Hp; simpl; [|discriminate].
    unfold decrease_quantity.
    destruct (Z.ltb_spec 0 q), (Z.leb_spec q (_quantity_available p)); simpl;
      try (intros [= _ <-]; apply Hinv).
    specialize (Hinv l) as [Hs _]. unfold stock_at in Hs.
    destruct (cart s !! pid); intros [= _ <-]; simpl;
      rewrite (stock_at_insert _ _ _ p) by exact Hp; simpl;
      case_decide; subst; unfold stock_at; rewrite ?Hp in Hs |- *; lia.
  - destruct (update_cart_quantity pid q s) as [[b s1]|] eqn:E; simpl; [|discriminate].
    intros [= <-] l. rewrite (update_cart_quantity_total s s1 pid q b l E).
    split; [|apply Hinv]. revert E. unfold update_cart_quantity.
    destruct (cart s !! pid) as [item|] eqn:Hit; [|intros [= _ <-]; apply Hinv].
    destruct (heap s !! product item) as [p|] eqn:Hp; simpl; [|discriminate].
    specialize (Hinv l) as [Hs _].
    destruct (Z.eqb_spec (q - quantity item) 0); [intros [= _ <-]; exact Hs|].
    destruct (Z.ltb_spec 0 (q - quantity item)).
    + destruct (Z.leb_spec (q - quantity item) (_quantity_available p));
        [|intros [= _ <-]; exact Hs].
      unfold decrease_quantity.
      destruct (Z.ltb_spec 0 (q - quantity item)); [|lia].
      destruct (Z.leb_spec (q - quantity item) (_quantity_available p)); [|lia].
      simpl. intros [= _ <-]; simpl.
      rewrite (stock_at_insert _ _ _ p) by exact Hp. simpl.
      case_decide; [|lia]. subst l. unfold stock_at in *. rewrite Hp in *. lia.
    + intros [= _ <-]; simpl.
      rewrite (stock_at_insert _ _ _ p) by exact Hp.
      cbv [increase_quantity with_quantity]; simpl. case_decide; lia.
  - destruct (remove_from_cart pid s) as [[b s1]|] eqn:E; simpl; [|discriminate].
    intros [= <-] l. rewrite (remove_from_cart_total s s1 pid b l Hwf E).
    split; [|apply Hinv]. revert E. unfold remove_from_cart.
    destruct (cart s !! pid) as [item|] eqn:Hit; [|intros [= _ <-]; apply Hinv].
    destruct (catalog s !! pid) as [lc|] eqn:Hl; simpl; [|discriminate].
    destruct (heap s !! lc) as [p|] eqn:Hp; simpl; [|discriminate].
    intros [= _ <-]; simpl.
    rewrite (stock_at_insert _ _ _ p) by exact Hp.
    cbv [increase_quantity with_quantity]; simpl.
    case_decide as El; [|specialize (Hinv l); lia].
    subst l. assert (Hlc : product item = lc) by (apply (wf_cart s Hwf) in Hit; congruence).
    pose proof (reserved_single s pid item Hwf Hit) as Hres. rewrite Hlc in Hres.
    destruct (Hinv lc) as [_ Ht]. unfold product_total in Ht. lia.
  - destruct (get_cart_total s) as [[t s1]|] eqn:E; simpl; [|discriminate].
    apply get_cart_total_state in E. subst s1. intros [= <-]. exact Hinv.
  - intros [= <-] l. unfold product_total, reserved, clear_cart; simpl.
    rewrite map_fold_empty. specialize (Hinv l). lia.
Qed.

Lemma reachable_nonneg_inv (s : ShoppingCart) :
  reachable_nonneg s ->
  wf s /\ forall l, 0 <= stock_at (heap s) l /\ 0 <= product_total s l.
Proof.
  induction 1 as [|o s s' _ [Hwf Hinv] Ho Hstep].
  - split; [exact wf_init|]. intros l. unfold product_total, stock_at, reserved; simpl.
    rewrite map_fold_empty. lia.
  - split; [eapply wf_step; eassumption|]. eapply nonneg_step; eassumption.
Qed.

Lemma reachable_nonneg_exec (os : list op) (s s' : ShoppingCart) :
  reachable_nonneg s -> Forall nonneg_product os -> exec os s = Some s' -> reachable_nonneg s'.
Proof.
  intros Hr Hos. revert s Hr. induction Hos as [|o os Ho _ IH]; simpl; intros s Hr E.
  - congruence.
  - destruct (step o s) as [s1|] eqn:E1; simpl in E; [|discriminate].
    eapply IH; [|exact E]. exact (reachable_nonneg_step o s s1 Hr Ho E1).
Qed.

Lemma reachable_nonneg_scenario : reachable_nonneg scenario_state.
Proof.
  apply (reachable_nonneg_exec [AddProduct "Pen" 10 5; AddProduct "Book" 50 2; AddToCart "PID001" 3] init);
    [constructor|repeat constructor; simpl; lia|reflexivity].
Qed.

(** When every product is created with a non-negative stock, no sequence of
    façade calls makes the available stock of a product object negative:
    [remove_from_cart] puts back exactly what the line had reserved, even
    after updates to a zero or negative line quantity. *)
Theorem stock_nonneg (s : ShoppingCart) :
  reachable_nonneg s ->
  forall l p, heap s !! l = Some p -> 0 <= _quantity_available p.
Proof.
  intros Hr l p Hp. destruct (reachable_nonneg_inv s Hr) as [_ Hinv].
  destruct (Hinv l) as [Hs _]. unfold stock_at in Hs. rewrite Hp in Hs. exact Hs.
Qed.

Lemma stock_nonneg_witness :
  reachable_nonneg scenario_state /\
  (forall l p, heap scenario_state !! l = Some p -> 0 <= _quantity_available p).
Proof.
  split; [exact reachable_nonneg_scenario|].
  exact (stock_nonneg scenario_state reachable_nonneg_scenario).
Defined.

(** Every façade call other than [add_product] keeps the catalog and the
    counter, and either leaves the objects alone or sets the available
    quantity of one allocated object. *)
Lemma step_shape (o : op) (s s' : ShoppingCart) :
  step o s = Some s' ->
  (exists n pr q, o = AddProduct n pr q) \/
  (catalog s' = catalog s /\ _next_id s' = _next_id s /\
   (heap s' = heap s \/
    exists l p x, heap s !! l = Some p /\ heap s' = <[l := with_quantity p x]> (heap s))).
Proof.
  destruct o as [n pr q|pid q|pid q|pid| |]; simpl; intros Hs; [left; eauto|right..];
    revert Hs.
  - destruct (add_to_cart pid q s) as [[b s1]|] eqn:E; simpl; [|discriminate].
    intros [= <-]. revert E. unfold add_to_cart.
    destruct (catalog s !! pid) as [lc|]; [|intros [= _ <-]; auto].
    destruct (heap s !! lc) as [p|] eqn:Hp; simpl; [|discriminate].
    unfold decrease_quantity. destruct (_ && _); simpl; [|intros [= _ <-]; auto].
    destruct (cart s !! pid); intros [= _ <-]; simpl; split_and!; eauto 10.
  - destruct (update_cart_quantity pid q s) as [[b s1]|] eqn:E; simpl; [|discriminate].
    intros [= <-]. revert E. unfold update_cart_quantity.
    destruct (cart s !! pid) as [item|]; [|intros [= _ <-]; auto].
    destruct (heap s !! product item) as [p|] eqn:Hp; simpl; [|discriminate].
    destruct (q - quantity item =? 0); [intros [= _ <-]; auto|].
    destruct (Z.ltb_spec 0 (q - quantity item)).
    + destruct (Z.leb_spec (q - quantity item) (_quantity_available p));
        [|intros [= _ <-]; auto].
      unfold decrease_quantity.
      destruct (Z.ltb_spec 0 (q - quantity item)); [|lia].
      destruct (Z.leb_spec (q - quantity item) (_quantity_available p)); [|lia].
      simpl. intros [= _ <-]; simpl. split_and!; eauto 10.
    + intros [= _ <-]; simpl. split_and!; eauto 10.
  - destruct (remove_from_cart pid s) as [[b s1]|] eqn:E; simpl; [|discriminate].
    intros [= <-]. revert E. unfold remove_from_cart.
    destruct (cart s !! pid) as [item|]; [|intros [= _ <-]; auto].
    destruct (catalog s !! pid) as [lc|]; simpl; [|discriminate].
    destruct (heap s !! lc) as [p|] eqn:Hp; simpl; [|discriminate].
    intros [= _ <-]; simpl. split_and!; eauto 10.
  - destruct (get_cart_total s) as [[t s1]|] eqn:E; simpl; [|discriminate].
    apply get_cart_total_state in E. subst s1. intros [= <-]. auto.
  - intros [= <-]. simpl. auto.
Qed.

Lemma add_product_fresh (s : ShoppingCart) :
  wf s -> catalog s !! pid_of (_next_id s) = None.
Proof.
  intros Hwf. destruct (catalog s !! pid_of (_next_id s)) as [l|] eqn:E; [|reflexivity].
  exfalso. apply (wf_catalog s Hwf) in E as [Hl Hpid].
  rewrite (wf_next s Hwf) in Hpid. apply pid_of_inj in Hpid; lia.
Qed.

Lemma step_persist (o : op) (s s' : ShoppingCart) :
  wf s -> step o s = Some s' ->
  (forall k l, catalog s !! k = Some l -> catalog s' !! k = Some l) /\
  (forall l p, heap s !! l = Some p -> exists p', heap s' !! l = Some p' /\
     _product_id p' = _product_id p /\ _name p' = _name p /\ _price p' = _price p).
Proof.
  intros Hwf E. destruct (step_shape o s s' E) as [(n & pr & q & ->)|(Hc & _ & Hh)].
  - simpl in E. injection E as <-. unfold add_product, generate_product_id; simpl. split.
    + intros k l Hk. rewrite lookup_insert_ne; [exact Hk|].
      intros <-. rewrite (add_product_fresh s Hwf) in Hk. discriminate.
    + intros l p Hp. exists p. rewrite lookup_app_l by (eapply lookup_lt_Some; eassumption).
      auto.
  - rewrite Hc. split; [auto|]. destruct Hh as [-> | (l0 & p0 & x & Hp0 & ->)]; [eauto|].
    intros l p Hp. destruct (decide (l = l0)) as [->|Hne].
    + rewrite list_lookup_insert_eq by (eapply lookup_lt_Some; eassumption).
      rewrite Hp0 in Hp. injection Hp as <-. eexists; split; [reflexivity|]. auto.
    + rewrite list_lookup_insert_ne by congruence. eauto.
Qed.

Lemma reachable_ids (s : ShoppingCart) :
  reachable s -> forall l p, heap s !! l = Some p -> _product_id p = pid_of (Z.of_nat l + 1).
Proof.
  induction 1 as [|o s s' Hr IH E]; intros l p Hp; [discriminate|].
  destruct (step_shape o s s' E) as [(n & pr & q & ->)|(_ & _ & Hh)].
  - simpl in E. injection E as <-. revert Hp. unfold add_product, generate_product_id; simpl.
    destruct (decide (l < length (heap s))%nat) as [Hlt|Hge].
    + rewrite lookup_app_l by exact Hlt. apply IH.
    + intros Hp. pose proof (lookup_lt_Some _ _ _ Hp) as Hl. rewrite length_app in Hl.
      simpl in Hl. rewrite lookup_app_r in Hp by lia.
      replace (l - length (heap s))%nat with 0%nat in Hp by lia. injection Hp as <-. simpl.
      rewrite (wf_next s (reachable_wf s Hr)). f_equal. lia.
  - destruct Hh as [Hh | (l0 & p0 & x & Hp0 & Hh)]; rewrite Hh in Hp; [eauto|].
    destruct (decide (l = l0)) as [->|Hne].
    + rewrite list_lookup_insert_eq in Hp by (eapply lookup_lt_Some; eassumption).
      injection Hp as <-. simpl. eauto.
    + rewrite list_lookup_insert_ne in Hp by congruence. eauto.
Qed.

(** Along any sequence of façade calls from a reachable state, no catalog
    entry is ever removed or redirected, and every product object keeps its
    id, name and price: only the available quantity ever changes. *)
Theorem products_persist (os : list op) (s s' : ShoppingCart) :
  reachable s -> exec os s = Some s' ->
  (forall k l, catalog s !! k = Some l -> catalog s' !! k = Some l) /\
  (forall l p, heap s !! l = Some p -> exists p', heap s' !! l = Some p' /\
     _product_id p' = _product_id p /\ _name p' = _name p /\ _price p' = _price p).
Proof.
  revert s. induction os as [|o os IH]; simpl; intros s Hr E.
  - injection E as <-. split; [auto|]. intros l p Hp. exists p. auto.
  - destruct (step o s) as [s1|] eqn:E1; simpl in E; [|discriminate].
    destruct (step_persist o s s1 (reachable_wf s Hr) E1) as [Hc1 Hh1].
    destruct (IH s1 (reachable_step o s s1 Hr E1) E) as [Hc2 Hh2].
    split; [auto|]. intros l p Hp.
    destruct (Hh1 l p Hp) as (p1 & Hp1 & Hi1 & Hn1 & Hr1).
    destruct (Hh2 l p1 Hp1) as (p2 & Hp2 & Hi2 & Hn2 & Hr2).
    exists p2. split_and!; congruence.
Qed.

Lemma products_persist_witness :
  reachable scenario_state /\
  exec [UpdateCartQuantity "PID001" 1; AddProduct "Ink" 5 1; RemoveFromCart "PID001"]
    scenario_state =
    Some (match exec [UpdateCartQuantity "PID001" 1; AddProduct "Ink" 5 1; RemoveFromCart "PID001"]
                 scenario_state with Some s' => s' | None => init end) /\
  ((forall k l, catalog scenario_state !! k = Some l ->
      catalog (match exec [UpdateCartQuantity "PID001" 1; AddProduct "Ink" 5 1;
                           RemoveFromCart "PID001"] scenario_state with
               | Some s' => s' | None => init end) !! k = Some l) /\
   (forall l p, heap scenario_state !! l = Some p -> exists p',
      heap (match exec [UpdateCartQuantity "PID001" 1; AddProduct "Ink" 5 1;
                        RemoveFromCart "PID001"] scenario_state with
            | Some s' => s' | None => init end) !! l = Some p' /\
      _product_id p' = _product_id p /\ _name p' = _name p /\ _price p' = _price p)).
Proof.
  pose proof reachable_scenario as Hr.
  assert (E : exec [UpdateCartQuantity "PID001" 1; AddProduct "Ink" 5 1; RemoveFromCart "PID001"]
    scenario_state =
    Some (match exec [UpdateCartQuantity "PID001" 1; AddProduct "Ink" 5 1; RemoveFromCart "PID001"]
                 scenario_state with Some s' => s' | None => init end)) by (vm_compute; reflexivity).
  split; [exact Hr|]. split; [exact E|].
  exact (products_persist _ _ _ Hr E).
Defined.

(** In every reachable state each catalog entry maps its key to a product
    object whose own [product_id] is that key. *)
Theorem catalog_key_is_product_id (s : ShoppingCart) :
  reachable s ->
  forall k l, catalog s !! k = Some l -> exists p, heap s !! l = Some p /\ _product_id p = k.
Proof.
  intros Hr k l Hk. pose proof (reachable_wf s Hr) as Hwf.
  destruct (wf_heap_lookup s k l Hwf Hk) as [p Hp]. exists p. split; [exact Hp|].
  apply (wf_catalog s Hwf) in Hk as [_ ->]. eapply reachable_ids; eassumption.
Qed.

Lemma catalog_key_is_product_id_witness :
  reachable scenario_state /\
  (forall k l, catalog scenario_state !! k = Some l ->
     exists p, heap scenario_state !! l = Some p /\ _product_id p = k).
Proof.
  pose proof reachable_scenario as Hr. split; [exact Hr|].
  exact (catalog_key_is_product_id scenario_state Hr).
Defined.

(** When [update_cart_quantity] succeeds, and with which resulting state. *)
Lemma update_cart_quantity_true (pid : string) (q : Z) (s s' : ShoppingCart) :
  update_cart_quantity pid q s = Some (true, s') <->
  exists item p, cart s !! pid = Some item /\ heap s !! product item = Some p /\
    (q - quantity item <= 0 \/ q - quantity item <= _quantity_available p) /\
    s' = if q =? quantity item then s
         else mkShoppingCart
                (<[product item := with_quantity p (_quantity_available p - (q - quantity item))]>
                   (heap s))
                (catalog s) (<[pid := mkCartItem (product item) q]> (cart s)) (_next_id s).
Proof.
  unfold update_cart_quantity. split.
  - destruct (cart s !! pid) as [item|] eqn:Hit; [|discriminate].
    destruct (heap s !! product item) as [p|] eqn:Hp; simpl; [|discriminate].
    intros H. exists item, p. split; [done|]. split; [done|]. revert H.
    destruct (Z.eqb_spec (q - quantity item) 0) as [E|E].
    + intros [= <-]. split; [lia|].
      destruct (Z.eqb_spec q (quantity item)); [reflexivity|lia].
    + destruct (Z.eqb_spec q (quantity item)); [lia|].
      destruct (Z.ltb_spec 0 (q - quantity item)).
      * destruct (Z.leb_spec (q - quantity item) (_quantity_available p)); [|discriminate].
        unfold decrease_quantity.
        destruct (Z.ltb_spec 0 (q - quantity item)); [|lia].
        destruct (Z.leb_spec (q - quantity item) (_quantity_available p)); [|lia].
        simpl. intros [= <-]. split; [lia|reflexivity].
      * intros [= <-]. split; [lia|]. cbv [increase_quantity].
        replace (_quantity_available p + - (q - quantity item))
          with (_quantity_available p - (q - quantity item)) by lia.
        reflexivity.
  - intros (item & p & Hit & Hp & Hc & ->). rewrite Hit, Hp. simpl.
    destruct (Z.eqb_spec (q - quantity item) 0), (Z.eqb_spec q (quantity item));
      try lia; [reflexivity|].
    destruct (Z.ltb_spec 0 (q - quantity item)).
    + destruct (Z.leb_spec (q - quantity item) (_quantity_available p)); [|lia].
      unfold decrease_quantity.
      destruct (Z.ltb_spec 0 (q - quantity item)); [|lia].
      destruct (Z.leb_spec (q - quantity item) (_quantity_available p)); [|lia].
      reflexivity.
    + cbv [increase_quantity].
      replace (_quantity_available p + - (q - quantity item))
        with (_quantity_available p - (q - quantity item)) by lia.
      reflexivity.
Qed.

(** Two successful updates of the same cart line end in the same state as
    one direct update to the second quantity (which then succeeds too). *)
Theorem update_cart_quantity_twice (s s1 s2 : ShoppingCart) (pid : string) (q1 q2 : Z) :
  update_cart_quantity pid q1 s = Some (true, s1) ->
  update_cart_quantity pid q2 s1 = Some (true, s2) ->
  update_cart_quantity pid q2 s = Some (true, s2).
Proof.
  rewrite !update_cart_quantity_true.
  intros (item & p & Hit & Hp & Hc1 & ->).
  destruct (Z.eqb_spec q1 (quantity item)) as [E1|E1]; [tauto|]. simpl.
  rewrite lookup_insert_eq.
  intros (item' & p' & Hit' & Hp' & Hc2 & ->). injection Hit' as <-. simpl in *.
  assert (Hlt : (product item < length (heap s))%nat) by (eapply lookup_lt_Some; eassumption).
  rewrite list_lookup_insert_eq in Hp' by exact Hlt. injection Hp' as <-. simpl in Hc2.
  exists item, p. split; [done|]. split; [done|]. split; [lia|].
  destruct (Z.eqb_spec q2 q1) as [->|E2].
  - destruct (Z.eqb_spec q1 (quantity item)); [lia|]. reflexivity.
  - rewrite list_insert_insert_eq, insert_insert_eq. simpl.
    destruct (Z.eqb_spec q2 (quantity item)) as [E|E].
    + restore_product p. rewrite (list_insert_id _ _ _ Hp), E, cart_item_eta.
      rewrite (insert_id _ _ _ Hit), state_eta. reflexivity.
    + cbv [with_quantity]; simpl.
      replace (_quantity_available p - (q1 - quantity item) - (q2 - q1))
        with (_quantity_available p - (q2 - quantity item)) by lia.
      reflexivity.
Qed.

Lemma update_cart_quantity_twice_witness :
  update_cart_quantity "PID001" 4 scenario_state =
    Some (true, match update_cart_quantity "PID001" 4 scenario_state with
                | Some (_, s1) => s1 | None => init end) /\
  update_cart_quantity "PID001" 1 (match update_cart_quantity "PID001" 4 scenario_state with
                                   | Some (_, s1) => s1 | None => init end) =
    Some (true, match update_cart_quantity "PID001" 1 scenario_state with
                | Some (_, s2) => s2 | None => init end) /\
  update_cart_quantity "PID001" 1 scenario_state =
    Some (true, match update_cart_quantity "PID001" 1 scenario_state with
                | Some (_, s2) => s2 | None => init end).
Proof.
  assert (H1 : update_cart_quantity "PID001" 4 scenario_state =
    Some (true, match update_cart_quantity "PID001" 4 scenario_state with
                | Some (_, s1) => s1 | None => init end)) by (vm_compute; reflexivity).
  assert (H2 : update_cart_quantity "PID001" 1
                 (match update_cart_quantity "PID001" 4 scenario_state with
                  | Some (_, s1) => s1 | None => init end) =
    Some (true, match update_cart_quantity "PID001" 1 scenario_state with
                | Some (_, s2) => s2 | None => init end)) by (vm_compute; reflexivity).
  split; [exact H1|]. split; [exact H2|].
  exact (update_cart_quantity_twice _ _ _ "PID001" 4 1 H1 H2).
Defined.

(** In a reachable state, removing a cart line with a positive quantity of a
    product whose stock is not negative, and adding the same quantity back,
    gives back the state we started from: the same product objects (hence
    the same stock), catalog and id counter, and the same cart as a mapping
    from product id to line (same product reference, same quantity).  The
    cart is a [gmap], which keeps no insertion order: in Python the
    re-added line goes to the end of the [cart] dict, so the order in which
    [view_cart] lists the lines (and [get_cart_total] sums them) may differ
    from the original. *)
Theorem remove_then_add_roundtrip (s s1 : ShoppingCart) (pid : string) (item : CartItem) :
  reachable s ->
  cart s !! pid = Some item ->
  0 < quantity item ->
  0 <= stock_at (heap s) (product item) ->
  remove_from_cart pid s = Some (true, s1) ->
  add_to_cart pid (quantity item) s1 = Some (true, s).
Proof.
  intros Hr Hit Hq Hst. pose proof (wf_cart s (reachable_wf s Hr) pid item Hit) as Hl.
  unfold remove_from_cart. rewrite Hit, Hl. simpl.
  destruct (heap s !! product item) as [p|] eqn:Hp; simpl; [|discriminate].
  unfold stock_at in Hst. rewrite Hp in Hst.
  assert (Hlt : (product item < length (heap s))%nat) by (eapply lookup_lt_Some; eassumption).
  intros [= <-]. unfold add_to_cart; simpl. rewrite Hl. simpl.
  rewrite list_lookup_insert_eq by exact Hlt. simpl.
  unfold decrease_quantity. cbv [increase_quantity with_quantity]; simpl.
  destruct (Z.ltb_spec 0 (quantity item)); [|lia].
  destruct (Z.leb_spec (quantity item) (_quantity_available p + quantity item)); [|lia].
  simpl. rewrite lookup_delete_eq, list_insert_insert_eq, insert_delete_eq.
  restore_product p. rewrite (list_insert_id _ _ _ Hp), cart_item_eta, (insert_id _ _ _ Hit).
  rewrite state_eta. reflexivity.
Qed.

Lemma remove_then_add_roundtrip_witness :
  reachable scenario_state /\
  cart scenario_state !! "PID001" = Some (mkCartItem 0 3) /\
  0 < quantity (mkCartItem 0 3) /\
  0 <= stock_at (heap scenario_state) (product (mkCartItem 0 3)) /\
  remove_from_cart "PID001" scenario_state =
    Some (true, match remove_from_cart "PID001" scenario_state with
                | Some (_, s1) => s1 | None => init end) /\
  add_to_cart "PID001" (quantity (mkCartItem 0 3))
    (match remove_from_cart "PID001" scenario_state with
     | Some (_, s1) => s1 | None => init end) = Some (true, scenario_state).
Proof.
  pose proof reachable_scenario as Hr.
  assert (H1 : cart scenario_state !! "PID001" = Some (mkCartItem 0 3)) by (vm_compute; reflexivity).
  assert (H2 : 0 < quantity (mkCartItem 0 3)) by (simpl; lia).
  assert (H3 : 0 <= stock_at (heap scenario_state) (product (mkCartItem 0 3)))
    by (vm_compute; discriminate).
  assert (H4 : remove_from_cart "PID001" scenario_state =
    Some (true, match remove_from_cart "PID001" scenario_state with
                | Some (_, s1) => s1 | None => init end)) by (vm_compute; reflexivity).
  split_and!; try assumption.
  exact (remove_then_add_roundtrip _ _ "PID001" (mkCartItem 0 3) Hr H1 H2 H3 H4).
Defined.

Lemma get_cart_total_value (s : ShoppingCart) :
  wf s -> get_cart_total s = Some (cart_value s, s).
Proof.
  intros Hwf. unfold get_cart_total, cart_value. rewrite cart_total_fold; [reflexivity|].
  intros k it H. apply (wf_cart s Hwf) in H. eapply wf_heap_lookup; eassumption.
Qed.

(** [add_product_ui] logs the id it obtained, which was not a catalog key
    before the call and now maps to a fresh product object with the entered
    name, price and quantity. *)
Theorem add_product_ui_spec (s : ShoppingCart) (name : string) (price qty : Z) :
  reachable s ->
  let '(events, s') := add_product_ui name price qty s in
  exists pid l, events = [LogAddedProduct pid name] /\ catalog s !! pid = None /\
    catalog s' !! pid = Some l /\ heap s' !! l = Some (mkProduct pid name price qty) /\
    cart s' = cart s.
Proof.
  intros Hr. pose proof (reachable_wf s Hr) as Hwf.
  unfold add_product_ui, add_product, generate_product_id; simpl.
  exists (pid_of (_next_id s)), (length (heap s)).
  split; [reflexivity|]. split; [exact (add_product_fresh s Hwf)|].
  split; [apply lookup_insert_eq|]. split; [|reflexivity].
  rewrite lookup_app_r, Nat.sub_diag by lia. reflexivity.
Qed.

Lemma add_product_ui_spec_witness :
  reachable scenario_state /\
  (let '(events, s') := add_product_ui "Ink" 5 1 scenario_state in
   exists pid l, events = [LogAddedProduct pid "Ink"] /\ catalog scenario_state !! pid = None /\
     catalog s' !! pid = Some l /\ heap s' !! l = Some (mkProduct pid "Ink" 5 1) /\
     cart s' = cart scenario_state).
Proof.
  pose proof reachable_scenario as Hr. split; [exact Hr|].
  exact (add_product_ui_spec scenario_state "Ink" 5 1 Hr).
Defined.



(** In a reachable state [update_cart_quantity_ui] raises exactly when the
    id has a cart line and the quantity dialog is cancelled ([None]).  An
    id not in the cart shows "Item not in cart."; for an entered quantity
    [q], "Not enough stock to increase." is shown, with the state
    unchanged, exactly when the quantity grows by more than the available
    stock, and the update is logged in every other case. *)
Theorem update_cart_quantity_ui_spec (s : ShoppingCart) (pid : string) (qty : option Z) :
  reachable s ->
  (update_cart_quantity_ui pid qty s = None <-> cart s !! pid <> None /\ qty = None) /\
  (cart s !! pid = None ->
     update_cart_quantity_ui pid qty s = Some ([ErrorBox "Item not in cart."], s)) /\
  (forall item p q, qty = Some q -> cart s !! pid = Some item -> heap s !! product item = Some p ->
     (0 < q - quantity item /\ _quantity_available p < q - quantity item ->
        update_cart_quantity_ui pid qty s =
          Some ([ErrorBox "Not enough stock to increase."], s)) /\
     (q - quantity item <= 0 \/ q - quantity item <= _quantity_available p ->
        exists s', update_cart_quantity pid q s = Some (true, s') /\
                   update_cart_quantity_ui pid qty s = Some ([LogUpdated pid q], s'))).
Proof.
  intros Hr. pose proof (reachable_wf s Hr) as Hwf.
  assert (Hcase : forall item p q, qty = Some q -> cart s !! pid = Some item ->
     heap s !! product item = Some p ->
     (0 < q - quantity item /\ _quantity_available p < q - quantity item ->
        update_cart_quantity_ui pid qty s =
          Some ([ErrorBox "Not enough stock to increase."], s)) /\
     (q - quantity item <= 0 \/ q - quantity item <= _quantity_available p ->
        exists s', update_cart_quantity pid q s = Some (true, s') /\
                   update_cart_quantity_ui pid qty s = Some ([LogUpdated pid q], s'))).
  { intros item p q -> Hit Hp. split.
    - intros Hq. unfold update_cart_quantity_ui, update_cart_quantity. rewrite Hit, Hp. simpl.
      destruct (Z.eqb_spec (q - quantity item) 0); [lia|].
      destruct (Z.ltb_spec 0 (q - quantity item)); [|lia].
      destruct (Z.leb_spec (q - quantity item) (_quantity_available p)); [lia|].
      reflexivity.
    - intros Hq.
      destruct (update_cart_quantity pid q s) as [[[] s']|] eqn:E.
      + exists s'. split; [reflexivity|]. unfold update_cart_quantity_ui. rewrite Hit, E.
        reflexivity.
      + exfalso. revert E. unfold update_cart_quantity. rewrite Hit, Hp. simpl.
        destruct (Z.eqb_spec (q - quantity item) 0); [discriminate|].
        destruct (Z.ltb_spec 0 (q - quantity item)); [|discriminate].
        destruct (Z.leb_spec (q - quantity item) (_quantity_available p)); [|lia].
        destruct (decrease_quantity p (q - quantity item)). discriminate.
      + exfalso. revert E. unfold update_cart_quantity. rewrite Hit, Hp. simpl.
        repeat case_match; discriminate. }
  split; [|split; [|exact Hcase]].
  - case_eq (cart s !! pid); [intros item Hit|intros Hit].
    + pose proof (wf_cart s Hwf pid item Hit) as Hl.
      destruct (wf_heap_lookup s pid (product item) Hwf Hl) as [p Hp].
      destruct qty as [q|].
      * assert (Hne : update_cart_quantity_ui pid (Some q) s <> None).
        { destruct (Z_le_gt_dec (q - quantity item) (Z.max 0 (_quantity_available p)))
            as [Hq|Hq].
          - destruct (proj2 (Hcase item p q eq_refl Hit Hp)) as (s' & _ & ->); [lia|].
            discriminate.
          - rewrite (proj1 (Hcase item p q eq_refl Hit Hp)) by lia. discriminate. }
        split; [intros Hn; contradiction|intros [_ Hn]; discriminate].
      * unfold update_cart_quantity_ui. rewrite Hit.
        split; [intros _; split; [discriminate|reflexivity]|reflexivity].
    + unfold update_cart_quantity_ui. rewrite Hit.
      split; [discriminate|intros [Hn _]; contradiction].
  - intros Hit. unfold update_cart_quantity_ui. rewrite Hit. reflexivity.
Qed.

Lemma update_cart_quantity_ui_spec_witness :
  reachable scenario_state /\
  ((update_cart_quantity_ui "PID001" (Some 9) scenario_state = None <->
      cart scenario_state !! "PID001" <> None /\ Some 9 = None) /\
   (cart scenario_state !! "PID001" = None ->
      update_cart_quantity_ui "PID001" (Some 9) scenario_state =
        Some ([ErrorBox "Item not in cart."], scenario_state)) /\
   (forall item p q, Some 9 = Some q -> cart scenario_state !! "PID001" = Some item ->
      heap scenario_state !! product item = Some p ->
      (0 < q - quantity item /\ _quantity_available p < q - quantity item ->
         update_cart_quantity_ui "PID001" (Some 9) scenario_state =
           Some ([ErrorBox "Not enough stock to increase."], scenario_state)) /\
      (q - quantity item <= 0 \/ q - quantity item <= _quantity_available p ->
         exists s', update_cart_quantity "PID001" q scenario_state = Some (true, s') /\
                    update_cart_quantity_ui "PID001" (Some 9) scenario_state =
                      Some ([LogUpdated "PID001" q], s')))).
Proof.
  pose proof reachable_scenario as Hr. split; [exact Hr|].
  exact (update_cart_quantity_ui_spec scenario_state "PID001" (Some 9) Hr).
Defined.

(** [remove_from_cart_ui] shows "Item not in cart." for an id with no cart
    line, leaving the state unchanged; in a reachable state it removes and
    logs every id that has a cart line, so it never raises there. *)
Theorem remove_from_cart_ui_spec (s : ShoppingCart) (pid : string) :
  reachable s ->
  (cart s !! pid = None ->
     remove_from_cart_ui pid s = Some ([ErrorBox "Item not in cart."], s)) /\
  (forall item, cart s !! pid = Some item ->
     exists s', remove_from_cart pid s = Some (true, s') /\
                remove_from_cart_ui pid s = Some ([LogRemoved pid], s')).
Proof.
  intros Hr. pose proof (reachable_wf s Hr) as Hwf. split.
  - intros Hit. unfold remove_from_cart_ui, remove_from_cart. rewrite Hit. reflexivity.
  - intros item Hit. pose proof (wf_cart s Hwf pid item Hit) as Hl.
    destruct (wf_heap_lookup s pid (product item) Hwf Hl) as [p Hp].
    unfold remove_from_cart_ui, remove_from_cart. rewrite Hit, Hl. simpl. rewrite Hp. simpl.
    eauto.
Qed.

Lemma remove_from_cart_ui_spec_witness :
  reachable scenario_state /\
  ((cart scenario_state !! "PID002" = None ->
      remove_from_cart_ui "PID002" scenario_state =
        Some ([ErrorBox "Item not in cart."], scenario_state)) /\
   (forall item, cart scenario_state !! "PID002" = Some item ->
      exists s', remove_from_cart "PID002" scenario_state = Some (true, s') /\
                 remove_from_cart_ui "PID002" scenario_state = Some ([LogRemoved "PID002"], s'))).
Proof.
  pose proof reachable_scenario as Hr. split; [exact Hr|].
  exact (remove_from_cart_ui_spec scenario_state "PID002" Hr).
Defined.

(** After a [checkout] from a reachable state the products and the catalog
    are unchanged, and a second [checkout] only reports an empty cart. *)
Theorem checkout_twice (s s1 : ShoppingCart) (events : list ui_event) :
  reachable s -> checkout s = Some (events, s1) ->
  heap s1 = heap s /\ catalog s1 = catalog s /\
  checkout s1 = Some ([InfoBox "Checkout" "Cart is empty."], s1).
Proof.
  intros Hr. pose proof (reachable_wf s Hr) as Hwf.
  unfold checkout at 1. rewrite (get_cart_total_value s Hwf).
  destruct (Z.eqb_spec (cart_value s) 0) as [E|E]; intros [= <- <-].
  - split; [reflexivity|]. split; [reflexivity|].
    unfold checkout. rewrite (get_cart_total_value s Hwf), E. reflexivity.
  - split; [reflexivity|]. split; [reflexivity|].
    assert (Hwf1 : wf (clear_cart s)) by (apply (wf_step ClearCart s); [exact Hwf|reflexivity]).
    unfold checkout. rewrite (get_cart_total_value _ Hwf1).
    unfold cart_value, clear_cart; simpl. rewrite map_fold_empty. reflexivity.
Qed.

Lemma checkout_twice_witness :
  reachable scenario_state /\
  checkout scenario_state =
    Some (match checkout scenario_state with Some (ev, _) => ev | None => [] end,
          match checkout scenario_state with Some (_, s1) => s1 | None => init end) /\
  (heap (match checkout scenario_state with Some (_, s1) => s1 | None => init end) =
     heap scenario_state /\
   catalog (match checkout scenario_state with Some (_, s1) => s1 | None => init end) =
     catalog scenario_state /\
   checkout (match checkout scenario_state with Some (_, s1) => s1 | None => init end) =
     Some ([InfoBox "Checkout" "Cart is empty."],
           match checkout scenario_state with Some (_, s1) => s1 | None => init end)).
Proof.
  pose proof reachable_scenario as Hr.
  assert (E : checkout scenario_state =
    Some (match checkout scenario_state with Some (ev, _) => ev | None => [] end,
          match checkout scenario_state with Some (_, s1) => s1 | None => init end))
    by (vm_compute; reflexivity).
  split; [exact Hr|]. split; [exact E|].
  exact (checkout_twice _ _ _ Hr E).
Defined.

(** A successful [decrease_quantity] lowers the stock by the amount, and
    [increase_quantity] by the same amount gives back the original object. *)
Theorem decrease_then_increase (p p' : Product) (amount : Z) :
  decrease_quantity p amount = (true, p') ->
  _quantity_available p' = _quantity_available p - amount /\
  increase_quantity p' amount = p.
Proof.
  unfold decrease_quantity. destruct (_ && _); [|discriminate].
  intros [= <-]. split; [reflexivity|].
  destruct p; cbv [increase_quantity with_quantity]; simpl. f_equal. lia.
Qed.

Lemma decrease_then_increase_witness :
  decrease_quantity (mkProduct "PID001" "Pen" 10 5) 3 =
    (true, snd (decrease_quantity (mkProduct "PID001" "Pen" 10 5) 3)) /\
  _quantity_available (snd (decrease_quantity (mkProduct "PID001" "Pen" 10 5) 3)) =
    _quantity_available (mkProduct "PID001" "Pen" 10 5) - 3 /\
  increase_quantity (snd (decrease_quantity (mkProduct "PID001" "Pen" 10 5) 3)) 3 =
    mkProduct "PID001" "Pen" 10 5.
Proof.
  assert (E : decrease_quantity (mkProduct "PID001" "Pen" 10 5) 3 =
    (true, snd (decrease_quantity (mkProduct "PID001" "Pen" 10 5) 3))) by reflexivity.
  split; [exact E|]. exact (decrease_then_increase _ _ 3 E).
Defined.

Lemma exec_catalog_persist (os : list op) (s s' : ShoppingCart) :
  reachable s -> exec os s = Some s' ->
  forall k l, catalog s !! k = Some l -> catalog s' !! k = Some l.
Proof.
  revert s. induction os as [|o os IH]; simpl; intros s Hr E.
  - injection E as <-. auto.
  - destruct (step o s) as [s1|] eqn:E1; simpl in E; [|discriminate].
    intros k l Hk. eapply (IH s1 (reachable_step o s s1 Hr E1) E).
    eapply (step_persist o s s1 (reachable_wf s Hr) E1). exact Hk.
Qed.

(** An id returned by [add_product] is never returned again by a later
    [add_product], whatever façade calls happen in between. *)
Theorem product_ids_never_reused (s s' : ShoppingCart) (os : list op)
    (n1 n2 : string) (p1 p2 q1 q2 : Z) :
  reachable s -> exec os (add_product n1 p1 q1 s).2 = Some s' ->
  (add_product n2 p2 q2 s').1 <> (add_product n1 p1 q1 s).1.
Proof.
  intros Hr E.
  assert (Hr1 : reachable (add_product n1 p1 q1 s).2)
    by (apply (reachable_step (AddProduct n1 p1 q1) s); [exact Hr|reflexivity]).
  assert (Hk : catalog (add_product n1 p1 q1 s).2 !! (add_product n1 p1 q1 s).1
                 = Some (length (heap s)))
    by (unfold add_product, generate_product_id; simpl; apply lookup_insert_eq).
  pose proof (exec_catalog_persist os _ s' Hr1 E _ _ Hk) as Hk'.
  pose proof (add_product_fresh s' (reachable_wf s' (reachable_exec os _ s' Hr1 E))) as Hf.
  change ((add_product n2 p2 q2 s').1) with (pid_of (_next_id s')). intros Heq.
  rewrite Heq, Hk' in Hf. discriminate.
Qed.

Lemma product_ids_never_reused_witness :
  reachable init /\
  exec [AddToCart "PID001" 1; RemoveFromCart "PID001"] (add_product "Pen" 10 5 init).2 =
    Some (match exec [AddToCart "PID001" 1; RemoveFromCart "PID001"]
                   (add_product "Pen" 10 5 init).2 with Some s' => s' | None => init end) /\
  (add_product "Book" 50 2
     (match exec [AddToCart "PID001" 1; RemoveFromCart "PID001"]
              (add_product "Pen" 10 5 init).2 with Some s' => s' | None => init end)).1
    <> (add_product "Pen" 10 5 init).1.
Proof.
  assert (E : exec [AddToCart "PID001" 1; RemoveFromCart "PID001"] (add_product "Pen" 10 5 init).2 =
    Some (match exec [AddToCart "PID001" 1; RemoveFromCart "PID001"]
                   (add_product "Pen" 10 5 init).2 with Some s' => s' | None => init end))
    by (vm_compute; reflexivity).
  split; [constructor|]. split; [exact E|].
  exact (product_ids_never_reused init _ _ "Pen" "Book" 10 50 5 2 reachable_init E).
Defined.

(** In every reachable state with [n] products created, the counter of
    [generate_product_id] is [n + 1] and the catalog keys are exactly
    ["PID001"], ..., [pid_of n], the [i]-th one mapping to the [i]-th
    object created. *)
Theorem catalog_keys_exact (s : ShoppingCart) :
  reachable s ->
  _next_id s = Z.of_nat (length (heap s)) + 1 /\
  forall k l, catalog s !! k = Some l <->
    (l < length (heap s))%nat /\ k = pid_of (Z.of_nat l + 1).
Proof.
  intros Hr. pose proof (reachable_wf s Hr) as Hwf.
  split; [exact (wf_next s Hwf)|exact (wf_catalog s Hwf)].
Qed.

Lemma catalog_keys_exact_witness :
  reachable scenario_state /\
  (_next_id scenario_state = Z.of_nat (length (heap scenario_state)) + 1 /\
   forall k l, catalog scenario_state !! k = Some l <->
     (l < length (heap scenario_state))%nat /\ k = pid_of (Z.of_nat l + 1)).
Proof.
  pose proof reachable_scenario as Hr. split; [exact Hr|].
  exact (catalog_keys_exact scenario_state Hr).
Defined.
